(** * OpenOCD-Nuvoton, src/helper/options.c: start-up option processing

    A shallow embedding of [find_exe_path], [find_suffix],
    [add_default_dirs] and [parse_cmdline_args], and the properties of the
    option processor stated over it.

    Conventions of the embedding.
    - A [char *] is an [option string]: [None] is the NULL pointer, [Some s]
      a NUL-terminated string with contents [s].  A position inside a string
      (the result of [strrchr] or [find_suffix]) is an offset in [nat].
    - The process state touched by options.c is the record [state]; the
      functions run in the monad [M], whose outcomes are a normal return, a
      call of [exit], or undefined behaviour (a NULL pointer is dereferenced
      or read as a string).
    - What is decided when the program is configured and compiled is the
      record [build]; what the operating system answers at run time is the
      record [os].
    - Heap exhaustion is outside the model: [malloc], [strdup] and
      [alloc_printf] yield their buffer.  The NULL tests the source makes on
      their results keep their place as matches on [option]. *)

From Stdlib Require Import String Ascii List ZArith Bool Arith Lia.
Import ListNotations.

Local Open Scope string_scope.
Local Open Scope list_scope.

(* ------------------------------------------------------------------------- *)
(** ** C strings *)

Module CString.

(** [strlen]. *)
Definition strlen (s : string) : nat := String.length s.

(** [strrchr s c]: offset of the last occurrence of [c] in [s], NULL when
    there is none. *)
Fixpoint strrchr (s : string) (c : ascii) : option nat :=
  match s with
  | EmptyString => None
  | String a s' =>
      match strrchr s' c with
      | Some i => Some (S i)
      | None => if Ascii.eqb a c then Some 0 else None
      end
  end.

(** [s[i] = '\0']: the string now ends at offset [i]. *)
Definition store_nul (s : string) (i : nat) : string := substring 0 i s.

(** [s + i]. *)
Fixpoint advance (s : string) (i : nat) : string :=
  match i, s with
  | O, _ => s
  | S i', String _ s' => advance s' i'
  | S _, EmptyString => EmptyString
  end.

(** [strncmp a b n]: sign of the first difference within [n] characters. *)
Fixpoint strncmp (a b : string) (n : nat) : Z :=
  match n with
  | O => 0%Z
  | S n' =>
      match a, b with
      | EmptyString, EmptyString => 0%Z
      | EmptyString, String _ _ => (-1)%Z
      | String _ _, EmptyString => 1%Z
      | String x a', String y b' =>
          if Ascii.eqb x y then strncmp a' b' n'
          else if (N_of_ascii x <? N_of_ascii y)%N then (-1)%Z else 1%Z
      end
  end.

(** The loop of find_exe_path that turns each backslash into a slash. *)
Fixpoint slashes (s : string) : string :=
  match s with
  | EmptyString => EmptyString
  | String a s' =>
      String (if Ascii.eqb a "\" then "/"%char else a) (slashes s')
  end.

(** Does [c] occur in [s]? *)
Fixpoint occurs (c : ascii) (s : string) : bool :=
  match s with
  | EmptyString => false
  | String a s' => Ascii.eqb a c || occurs c s'
  end.

End CString.
Import CString.

(* ------------------------------------------------------------------------- *)
(** ** Configuration of the build and answers of the operating system *)

(** Preprocessor symbols options.c tests, and the two configured paths. *)
Record build : Type := mkBuild {
  IS_WIN32 : bool;
  IS_CYGWIN : bool;
  IS_DARWIN : bool;
  (** CTL_KERN, KERN_PROC and KERN_PROC_PATHNAME are all defined (a BSD) *)
  HAVE_KERN_PROC_PATHNAME : bool;
  (** the compiler defines _WIN32 *)
  DEF_WIN32 : bool;
  (** the value of NUVOTON_CUSTOMIZED is not zero *)
  NUVOTON_CUSTOMIZED : bool;
  BINDIR : string;
  PKGDATADIR : string
}.

(** [#ifndef _WIN32 / #define HAVE_REALPATH]. *)
Definition HAVE_REALPATH (b : build) : bool := negb (DEF_WIN32 b).

(** The condition [defined(_WIN32) && (NUVOTON_CUSTOMIZED)]. *)
Definition nuvoton_win32 (b : build) : bool :=
  DEF_WIN32 b && NUVOTON_CUSTOMIZED b.

Record os : Type := mkOs {
  (** contents of the buffer after [GetModuleFileName(NULL, buf, MAX_PATH)] *)
  GetModuleFileName : string;
  (** [proc_pidpath(getpid(), buf, size)]: the path when the result is > 0 *)
  proc_pidpath : option string;
  (** [sysctl] on KERN_PROC_PATHNAME: the path when the result is 0 *)
  sysctl_pathname : option string;
  (** [realpath(path, NULL)] *)
  realpath : string -> option string;
  (** [getenv(name)] *)
  getenv : string -> option string
}.

(* ------------------------------------------------------------------------- *)
(** ** Process state and the monad of options.c *)

Inductive log_level : Type :=
| LOG_LVL_OUTPUT | LOG_LVL_USER | LOG_LVL_WARNING | LOG_LVL_DEBUG.

(** A [struct command_context *] is only handed on; its address stands for it. *)
Definition command_context : Type := nat.

Record state : Type := mkState {
  (** [static int help_flag, version_flag] *)
  help_flag : Z;
  version_flag : Z;
  (** the script search path, in registration order *)
  script_search_dirs : list string;
  (** the queue of configuration commands, in order of arrival *)
  config_commands : list string;
  (** the lines handed to [command_run_line], in order *)
  run_lines : list (command_context * string);
  (** what went to the log *)
  log : list (log_level * string)
}.

(** The state a process starts in: statics are zero, nothing is registered. *)
Definition initial_state : state := mkState 0 0 [] [] [] [].

Inductive outcome (A : Type) : Type :=
| Returns (a : A) (s : state)      (** the function returns [a] *)
| Exits (status : Z) (s : state)   (** [exit(status)] was called *)
| Undefined.                       (** a NULL pointer was dereferenced *)
Arguments Returns {A} a s.
Arguments Exits {A} status s.
Arguments Undefined {A}.

Definition M (A : Type) : Type := state -> outcome A.

Definition ret {A} (a : A) : M A := fun s => Returns a s.

Definition bind {A B} (m : M A) (k : A -> M B) : M B :=
  fun s =>
    match m s with
    | Returns a s' => k a s'
    | Exits n s' => Exits n s'
    | Undefined => Undefined
    end.

Declare Scope c_scope.
Delimit Scope c_scope with c.
Notation "x <- m ;; k" := (bind m (fun x => k))
  (at level 61, m at next level, right associativity) : c_scope.
Notation "m ;; k" := (bind m (fun _ => k))
  (at level 61, right associativity) : c_scope.
Local Open Scope c_scope.

(** [exit(status)]. *)
Definition exit {A} (status : Z) : M A := fun s => Exits status s.

(** The status the parent process sees: the low eight bits. *)
Definition wait_status (status : Z) : Z := Z.land status 255.

(** Dereferencing a pointer, reading a [char *] as a string. *)
Definition deref {A} (p : option A) : M A :=
  fun s => match p with Some a => Returns a s | None => Undefined end.

Definition modify (f : state -> state) : M unit := fun s => Returns tt (f s).

Definition ERROR_OK : Z := 0.

(** Code of a character, as the [int] getopt_long returns. *)
Definition chr (c : ascii) : Z := Z.of_N (N_of_ascii c).

(* ------------------------------------------------------------------------- *)
(** ** Collaborators of options.c *)

(** Modelled from the spec: the LOG_ macros of helper/log.h are not under
    src/.  The spec asks for a logging facility with WARNING, DEBUG and
    user-visible output levels; a call is recorded with its level and its
    text, whatever the level the log is set to show. *)
Definition log_printf (lvl : log_level) (text : string) : M unit :=
  modify (fun s =>
    mkState (help_flag s) (version_flag s) (script_search_dirs s)
            (config_commands s) (run_lines s) (log s ++ [(lvl, text)])).

Definition LOG_OUTPUT : string -> M unit := log_printf LOG_LVL_OUTPUT.
Definition LOG_USER_N : string -> M unit := log_printf LOG_LVL_USER.
Definition LOG_WARNING : string -> M unit := log_printf LOG_LVL_WARNING.
Definition LOG_DEBUG : string -> M unit := log_printf LOG_LVL_DEBUG.

(** Modelled from the spec: alloc_printf of helper/log.c is not under src/.
    It hands back a fresh buffer holding the formatted text; the argument
    here is the text after expansion of the format. *)
Definition alloc_printf (text : string) : option string := Some text.

(** [strdup]. *)
Definition strdup (s : string) : option string := Some s.

(** Modelled from the spec: add_script_search_dir of helper/configuration.c
    is not under src/.  The script search path is an ordered, append-only
    sequence of directories; registration adds the directory at its end, so
    the list holds the arguments of the calls in their order. *)
Definition add_script_search_dir (dir : string) : M unit :=
  modify (fun s =>
    mkState (help_flag s) (version_flag s) (script_search_dirs s ++ [dir])
            (config_commands s) (run_lines s) (log s)).

(** Modelled from the spec: add_config_command of helper/configuration.c is
    not under src/.  The configuration queue is an ordered sequence of
    directives to be run later, in the order they were appended. *)
Definition add_config_command (cfg : string) : M unit :=
  modify (fun s =>
    mkState (help_flag s) (version_flag s) (script_search_dirs s)
            (config_commands s ++ [cfg]) (run_lines s) (log s)).

(** Modelled from the spec: command_run_line of helper/command.c is not under
    src/.  It runs one directive now; what the directive does belongs to the
    interpreter, the model records that it ran.  options.c discards the
    [int] it returns. *)
Definition command_run_line (ctx : command_context) (line : string) : M unit :=
  modify (fun s =>
    mkState (help_flag s) (version_flag s) (script_search_dirs s)
            (config_commands s) (run_lines s ++ [(ctx, line)]) (log s)).

(* ------------------------------------------------------------------------- *)
(** ** The executable locator and the default path builder *)

(** options.c, lines 54-59. *)
Definition configuration_output_handler (context : command_context)
    (line : string) : M Z :=
  LOG_USER_N line ;; ret ERROR_OK.

(** The body of the [do { ... } while (0)] of find_exe_path (options.c,
    lines 68-118): the branch the preprocessor keeps, and the pointer it
    leaves in [exepath]. *)
Definition lookup_exe_path (b : build) (w : os) : option string :=
  if IS_WIN32 b && negb (IS_CYGWIN b) then
    Some (slashes (GetModuleFileName w))
  else if IS_DARWIN b then
    proc_pidpath w
  else if HAVE_KERN_PROC_PATHNAME b then
    match sysctl_pathname w with
    | None => None
    | Some path => if HAVE_REALPATH b then realpath w path else Some path
    end
  else if HAVE_REALPATH b then
    match realpath w "/proc/self/exe" with
    | Some p => Some p
    | None =>
        match realpath w "/proc/self/path/a.out" with
        | Some p => Some p
        | None => realpath w "/proc/curproc/file"
        end
    end
  else None.

(** options.c, lines 64-134. *)
Definition find_exe_path (b : build) (w : os) : M (option string) :=
  match lookup_exe_path b w with
  | Some exepath =>
      (* Strip executable file name, leaving path *)
      i <- deref (strrchr exepath "/") ;;
      ret (Some (store_nul exepath i))
  | None =>
      LOG_WARNING "Could not determine executable path, using configured BINDIR." ;;
      LOG_DEBUG ("BINDIR = " ++ BINDIR b) ;;
      ret (if HAVE_REALPATH b then realpath w (BINDIR b)
           else strdup (BINDIR b))
  end.

(** options.c, lines 136-148.
    [find_suffix text suffix]: offset in [text] where [suffix] starts when it
    ends [text], NULL otherwise.  [text_len - suffix_len] is only computed
    when [suffix_len <= text_len], so the subtraction on [size_t] does not
    wrap. *)
Definition find_suffix (text suffix : string) : option nat :=
  let text_len := strlen text in
  let suffix_len := strlen suffix in
  if Nat.eqb suffix_len 0 then Some text_len
  else if Nat.ltb text_len suffix_len
          || negb (Z.eqb (strncmp (advance text (text_len - suffix_len))
                                  suffix suffix_len) 0)
  then None (* Not a suffix of text *)
  else Some (text_len - suffix_len).

(** The contents of [exepath] once add_default_dirs has called find_suffix
    and cut at the position found. *)
Definition cut_at (exepath : string) (end_of_prefix : option nat) : string :=
  match end_of_prefix with
  | Some j => store_nul exepath j
  | None => exepath
  end.

(** The entries add_default_dirs registers that come from the environment
    (options.c, lines 179-204): HOME, OPENOCD_SCRIPTS and, where _WIN32 is
    defined, APPDATA. *)
Definition add_env_dirs (b : build) (w : os) : M unit :=
  (match getenv w "HOME" with
   | Some home =>
       match alloc_printf (home ++ "/.openocd") with
       | Some path => add_script_search_dir path
       | None => ret tt
       end
   | None => ret tt
   end) ;;
  (match getenv w "OPENOCD_SCRIPTS" with
   | Some path => add_script_search_dir path
   | None => ret tt
   end) ;;
  (if DEF_WIN32 b then
     match getenv w "APPDATA" with
     | Some appdata =>
         match alloc_printf (appdata ++ "/OpenOCD") with
         | Some path => add_script_search_dir path
         | None => ret tt
         end
     | None => ret tt
     end
   else ret tt).

(** The two entries relative to the installation (options.c, lines
    206-230). *)
Definition add_install_dirs (b : build) (run_prefix : string) : M unit :=
  if nuvoton_win32 b then
    (match alloc_printf (run_prefix ++ "/site") with
     | Some path => add_script_search_dir path
     | None => ret tt
     end) ;;
    (match alloc_printf (run_prefix ++ "/scripts") with
     | Some path => add_script_search_dir path
     | None => ret tt
     end)
  else
    (match alloc_printf (run_prefix ++ PKGDATADIR b ++ "/site") with
     | Some path => add_script_search_dir path
     | None => ret tt
     end) ;;
    (match alloc_printf (run_prefix ++ PKGDATADIR b ++ "/scripts") with
     | Some path => add_script_search_dir path
     | None => ret tt
     end).

(** options.c, lines 150-232. *)
Definition add_default_dirs (b : build) (w : os) : M unit :=
  found <- find_exe_path b w ;;
  exepath <- deref found ;;
  (* Strip executable file name, leaving path *)
  i <- deref (strrchr exepath "/") ;;
  let exepath := store_nul exepath i in
  let end_of_prefix :=
    if nuvoton_win32 b then find_suffix exepath "bin"
    else find_suffix exepath (BINDIR b) in
  let run_prefix := cut_at exepath end_of_prefix in
  LOG_DEBUG ("bindir=" ++ BINDIR b) ;;
  LOG_DEBUG ("pkgdatadir=" ++ PKGDATADIR b) ;;
  LOG_DEBUG ("run_prefix=" ++ run_prefix) ;;
  add_env_dirs b w ;;
  add_install_dirs b run_prefix.

(* ------------------------------------------------------------------------- *)
(** ** getopt_long
    options.c parses with the C library's getopt_long.  What the program
    gives it is embedded from the source: the table [long_options] and the
    option string.  The scanner itself is the library's, modelled after its
    documented behaviour (GNU getopt_long with its default ordering, where
    arguments that are no options are passed over): [returns args] is the
    list of results of the successive calls, up to the call that returns -1. *)

Module Getopt.

Inductive has_arg_t : Type :=
| no_argument | required_argument | optional_argument.

(** The two [int] variables a [struct option] of the table points at. *)
Inductive flag_var : Type := Help_flag | Version_flag.

(** [struct option]. *)
Record option_entry : Type := mkOption {
  name : string;
  has_arg : has_arg_t;
  flag : option flag_var;
  val : Z
}.

(** What one call reports: the [int] returned, [optarg], and the store made
    through the [flag] pointer of the entry matched, if it has one. *)
Record ret_t : Type := mkRet {
  g_c : Z;
  g_optarg : option string;
  g_store : option (flag_var * Z)
}.

(** An option that is not recognised, or lacks its argument: ['?']. *)
Definition unrecognized : ret_t := mkRet (chr "?") None None.

(** A long option matched: [*flag = val; return 0] when the entry has a flag
    pointer, [return val] otherwise. *)
Definition matched (e : option_entry) (optarg : option string) : ret_t :=
  match flag e with
  | Some f => mkRet 0 optarg (Some (f, val e))
  | None => mkRet (val e) optarg None
  end.

Definition has_arg_eqb (x y : has_arg_t) : bool :=
  match x, y with
  | no_argument, no_argument
  | required_argument, required_argument
  | optional_argument, optional_argument => true
  | _, _ => false
  end.

Definition flag_eqb (x y : option flag_var) : bool :=
  match x, y with
  | None, None | Some Help_flag, Some Help_flag
  | Some Version_flag, Some Version_flag => true
  | _, _ => false
  end.

Definition same_action (x y : option_entry) : bool :=
  has_arg_eqb (has_arg x) (has_arg y) && flag_eqb (flag x) (flag y)
  && Z.eqb (val x) (val y).

(** The entry a long option name selects: the one of that name, else the
    entries the name abbreviates when they all act alike. *)
Definition find_long (table : list option_entry) (nm : string)
  : option option_entry :=
  match find (fun e => String.eqb (name e) nm) table with
  | Some e => Some e
  | None =>
      match filter (fun e => prefix nm (name e)) table with
      | [] => None
      | e :: others => if forallb (same_action e) others then Some e else None
      end
  end.

(** [name=value] split at the first ['=']. *)
Fixpoint split_eq (s : string) : string * option string :=
  match s with
  | EmptyString => (EmptyString, None)
  | String a s' =>
      if Ascii.eqb a "=" then (EmptyString, Some s')
      else let (n, v) := split_eq s' in (String a n, v)
  end.

(** The argument [--body]; [next] is the argument after it, if any.  The
    boolean tells whether [next] was taken as the option's argument. *)
Definition long_option (table : list option_entry) (body : string)
    (next : option string) : ret_t * bool :=
  let (nm, value) := split_eq body in
  match find_long table nm with
  | None => (unrecognized, false)
  | Some e =>
      match value, has_arg e with
      | Some _, no_argument => (unrecognized, false)
      | Some v, _ => (matched e (Some v), false)
      | None, required_argument =>
          match next with
          | Some a => (matched e (Some a), true)
          | None => (unrecognized, false)
          end
      | None, _ => (matched e None, false)
      end
  end.

(** The letter [c] in the option string: [c::] takes an optional argument,
    [c:] a required one. *)
Fixpoint short_lookup (optstring : string) (c : ascii) : option has_arg_t :=
  match optstring with
  | EmptyString => None
  | String a rest =>
      if Ascii.eqb a c then
        Some match rest with
             | String ":" (String ":" _) => optional_argument
             | String ":" _ => required_argument
             | _ => no_argument
             end
      else short_lookup rest c
  end.

(** The letters of one argument [-chars], one call per letter until a letter
    takes the rest, or the next argument, as its own argument. *)
Fixpoint short_options (optstring : string) (chars : string)
    (next : option string) : list ret_t * bool :=
  match chars with
  | EmptyString => ([], false)
  | String c rest =>
      match (if Ascii.eqb c ":" then None else short_lookup optstring c) with
      | None =>
          let (l, took) := short_options optstring rest next in
          (unrecognized :: l, took)
      | Some no_argument =>
          let (l, took) := short_options optstring rest next in
          (mkRet (chr c) None None :: l, took)
      | Some optional_argument =>
          ([mkRet (chr c)
                  (match rest with EmptyString => None | _ => Some rest end)
                  None], false)
      | Some required_argument =>
          match rest, next with
          | String _ _, _ => ([mkRet (chr c) (Some rest) None], false)
          | EmptyString, Some a => ([mkRet (chr c) (Some a) None], true)
          | EmptyString, None => ([unrecognized], false)
          end
      end
  end.

Inductive arg_kind : Type :=
| Terminator                 (** [--]: the options end here *)
| Long (body : string)       (** [--body] *)
| Short (chars : string)     (** [-chars] *)
| NonOption.                 (** anything else, [-] included *)

Definition classify (arg : string) : arg_kind :=
  match arg with
  | String "-" (String "-" EmptyString) => Terminator
  | String "-" (String "-" body) => Long body
  | String "-" (String c rest) => Short (String c rest)
  | _ => NonOption
  end.

(** The results of the calls on the arguments [args] (argv from [optind]
    on), in order, the final -1 left out. *)
Fixpoint returns (table : list option_entry) (optstring : string)
    (args : list string) : list ret_t :=
  match args with
  | [] => []
  | arg :: rest =>
      match classify arg with
      | Terminator => []
      | NonOption => returns table optstring rest
      | Long body =>
          let (r, took) := long_option table body (hd_error rest) in
          r :: match took, rest with
               | true, _ :: rest' => returns table optstring rest'
               | _, _ => returns table optstring rest
               end
      | Short chars =>
          let (l, took) := short_options optstring chars (hd_error rest) in
          l ++ match took, rest with
               | true, _ :: rest' => returns table optstring rest'
               | _, _ => returns table optstring rest
               end
      end
  end.

End Getopt.
Import Getopt.

(* ------------------------------------------------------------------------- *)
(** ** The option parser *)

(** options.c, lines 42-52. *)
Definition long_options : list option_entry :=
  [ mkOption "help"       no_argument       (Some Help_flag)    1;
    mkOption "version"    no_argument       (Some Version_flag) 1;
    mkOption "debug"      optional_argument None (chr "d");
    mkOption "file"       required_argument None (chr "f");
    mkOption "search"     required_argument None (chr "s");
    mkOption "log_output" required_argument None (chr "l");
    mkOption "command"    required_argument None (chr "c");
    mkOption "pipe"       no_argument       None (chr "p") ].

Definition optstring : string := "hvd::l:f:s:c:p".

(** The results of the calls [getopt_long(argc, argv, "hvd::l:f:s:c:p",
    long_options, &option_index)] the loop makes; [argv[0]] is skipped. *)
Definition getopt_long (argv : list string) : list ret_t :=
  returns long_options optstring (tl argv).

Definition set_help_flag (v : Z) : M unit :=
  modify (fun s =>
    mkState v (version_flag s) (script_search_dirs s) (config_commands s)
            (run_lines s) (log s)).

Definition set_version_flag (v : Z) : M unit :=
  modify (fun s =>
    mkState (help_flag s) v (script_search_dirs s) (config_commands s)
            (run_lines s) (log s)).

(** The store getopt_long makes through [&help_flag] or [&version_flag]. *)
Definition store_flag (st : option (flag_var * Z)) : M unit :=
  match st with
  | Some (Help_flag, v) => set_help_flag v
  | Some (Version_flag, v) => set_version_flag v
  | None => ret tt
  end.

(** The [switch (c)] of the loop (options.c, lines 248-292).  There is no
    [default] label: a value that matches no [case] falls out of the
    switch. *)
Definition option_switch (cmd_ctx : command_context) (c : Z)
    (optarg : option string) : M unit :=
  if Z.eqb c 0 then ret tt
  else if Z.eqb c (chr "h") then set_help_flag 1
  else if Z.eqb c (chr "v") then set_version_flag 1
  else if Z.eqb c (chr "f") then
    arg <- deref optarg ;;
    command <- deref (alloc_printf ("script {" ++ arg ++ "}")) ;;
    add_config_command command
  else if Z.eqb c (chr "s") then
    arg <- deref optarg ;;
    add_script_search_dir arg
  else if Z.eqb c (chr "d") then
    command <- deref (alloc_printf
      ("debug_level " ++ match optarg with Some a => a | None => "3" end)) ;;
    command_run_line cmd_ctx command
  else if Z.eqb c (chr "l") then
    match optarg with
    | Some arg =>
        command <- deref (alloc_printf ("log_output " ++ arg)) ;;
        command_run_line cmd_ctx command
    | None => ret tt
    end
  else if Z.eqb c (chr "c") then
    match optarg with
    | Some arg => add_config_command arg
    | None => ret tt
    end
  else if Z.eqb c (chr "p") then
    command_run_line cmd_ctx "gdb_port pipe; log_output openocd.log" ;;
    LOG_WARNING
      ("deprecated option: -p/--pipe. Use '-c "
       ++ String "034" "gdb_port pipe; log_output openocd.log"
       ++ String "034" "' instead.")
  else ret tt.

(** The [while (1)] loop (options.c, lines 238-293), over the results of its
    calls of getopt_long: the empty list is the call that returns -1 and
    breaks the loop. *)
Fixpoint parse_loop (cmd_ctx : command_context) (calls : list ret_t)
  : M unit :=
  match calls with
  | [] => ret tt
  | r :: calls' =>
      store_flag (g_store r) ;;
      option_switch cmd_ctx (g_c r) (g_optarg r) ;;
      parse_loop cmd_ctx calls'
  end.

(** Newline and tabulator. *)
Definition NL : string := String "010" "".
Definition TAB : string := String "009" "".

(** The usage text, one entry per LOG_OUTPUT call. *)
Definition usage : list string :=
  [ ("Open On-Chip Debugger" ++ NL ++ "Licensed under GNU GPL v2" ++ NL)%string;
    ("--help       | -h" ++ TAB ++ "display this help" ++ NL)%string;
    ("--version    | -v" ++ TAB ++ "display OpenOCD version" ++ NL)%string;
    ("--file       | -f" ++ TAB ++ "use configuration file <name>" ++ NL)%string;
    ("--search     | -s" ++ TAB ++ "dir to search for config files and scripts" ++ NL)%string;
    ("--debug      | -d" ++ TAB ++ "set debug level <0-4>" ++ NL)%string;
    ("--log_output | -l" ++ TAB ++ "redirect log output to file <name>" ++ NL)%string;
    ("--command    | -c" ++ TAB ++ "run <command>" ++ NL)%string ].

Fixpoint print_lines (lines : list string) : M unit :=
  match lines with
  | [] => ret tt
  | l :: rest => LOG_OUTPUT l ;; print_lines rest
  end.

(** What follows the loop in parse_cmdline_args (options.c, lines
    295-318). *)
Definition after_loop (b : build) (w : os) : M Z :=
  fun s =>
    (if negb (Z.eqb (help_flag s) 0) then
       print_lines usage ;; exit (-1)
     else if negb (Z.eqb (version_flag s) 0) then
       (* It is not an error to request the VERSION number. *)
       exit 0
     else
       (* paths specified on the command line take precedence over these
          built-in paths *)
       add_default_dirs b w ;;
       ret ERROR_OK) s.

(** options.c, lines 234-319.  [argc] is the length of [argv]. *)
Definition parse_cmdline_args (b : build) (w : os)
    (cmd_ctx : command_context) (argv : list string) : M Z :=
  parse_loop cmd_ctx (getopt_long argv) ;;
  after_loop b w.

(* ------------------------------------------------------------------------- *)
(** ** Reading an argument vector through the results of getopt_long *)

(** The result is the report of [-h] or of [--help]. *)
Definition asks_help (r : ret_t) : bool :=
  Z.eqb (g_c r) (chr "h")
  || match g_store r with Some (Help_flag, _) => true | _ => false end.

(** The result is the report of [-v] or of [--version]. *)
Definition asks_version (r : ret_t) : bool :=
  Z.eqb (g_c r) (chr "v")
  || match g_store r with Some (Version_flag, _) => true | _ => false end.

(** The directory a [-s]/[--search] occurrence carries. *)
Definition search_arg (r : ret_t) : list string :=
  if Z.eqb (g_c r) (chr "s") then
    match g_optarg r with Some dir => [dir] | None => [] end
  else [].

(** The directives a [-f]/[--file] or [-c]/[--command] occurrence defers. *)
Definition deferred (r : ret_t) : list string :=
  if Z.eqb (g_c r) (chr "f") then
    match g_optarg r with
    | Some path => [("script {" ++ path ++ "}")%string]
    | None => []
    end
  else if Z.eqb (g_c r) (chr "c") then
    match g_optarg r with Some text => [text] | None => [] end
  else [].

(** The directives a [-d], [-l] or [-p] occurrence runs at once. *)
Definition immediate (r : ret_t) : list string :=
  if Z.eqb (g_c r) (chr "d") then
    [("debug_level "
      ++ match g_optarg r with Some a => a | None => "3" end)%string]
  else if Z.eqb (g_c r) (chr "l") then
    match g_optarg r with
    | Some path => [("log_output " ++ path)%string]
    | None => []
    end
  else if Z.eqb (g_c r) (chr "p") then
    ["gdb_port pipe; log_output openocd.log"]
  else [].

(** The warning a [-p]/[--pipe] occurrence logs. *)
Definition warned (r : ret_t) : list (log_level * string) :=
  if Z.eqb (g_c r) (chr "p") then
    [(LOG_LVL_WARNING,
      ("deprecated option: -p/--pipe. Use '-c "
       ++ String "034" "gdb_port pipe; log_output openocd.log"
       ++ String "034" "' instead.")%string)]
  else [].

(** What getopt_long can report for the table and option string of
    options.c: a store is [1] into one of the two flags and comes with the
    value 0; [f] and [s] come with their argument. *)
Definition well_formed (r : ret_t) : bool :=
  match g_store r with
  | None =>
      negb (Z.eqb (g_c r) (chr "f") || Z.eqb (g_c r) (chr "s"))
      || match g_optarg r with Some _ => true | None => false end
  | Some (_, v) => Z.eqb v 1 && Z.eqb (g_c r) 0
  end.

(** The result is [f] or [s] without an argument: the two cases of the
    switch that use [optarg] without a test. *)
Definition lacks_optarg (r : ret_t) : bool :=
  (Z.eqb (g_c r) (chr "f") || Z.eqb (g_c r) (chr "s"))
  && match g_optarg r with None => true | Some _ => false end.

(* ------------------------------------------------------------------------- *)
(** ** The default directories, as values *)

Definition opt_list {A} (o : option A) : list A :=
  match o with Some a => [a] | None => [] end.

(** The defaults in their order: home directory, OPENOCD_SCRIPTS,
    application data where _WIN32 is defined, site, scripts. *)
Definition default_dirs (b : build) (w : os) (run_prefix : string)
  : list string :=
  opt_list (option_map (fun home => home ++ "/.openocd")%string
                       (getenv w "HOME"))
  ++ opt_list (getenv w "OPENOCD_SCRIPTS")
  ++ (if DEF_WIN32 b then
        opt_list (option_map (fun appdata => appdata ++ "/OpenOCD")%string
                             (getenv w "APPDATA"))
      else [])
  ++ (if nuvoton_win32 b then
        [(run_prefix ++ "/site")%string; (run_prefix ++ "/scripts")%string]
      else
        [(run_prefix ++ PKGDATADIR b ++ "/site")%string;
         (run_prefix ++ PKGDATADIR b ++ "/scripts")%string]).

(** The string find_exe_path returns, when it returns one. *)
Definition exe_dir (b : build) (w : os) : option string :=
  match lookup_exe_path b w with
  | Some exepath => option_map (store_nul exepath) (strrchr exepath "/")
  | None => if HAVE_REALPATH b then realpath w (BINDIR b)
            else strdup (BINDIR b)
  end.

(** What find_exe_path logs. *)
Definition locator_log (b : build) (w : os) : list (log_level * string) :=
  match lookup_exe_path b w with
  | Some _ => []
  | None =>
      [(LOG_LVL_WARNING,
        "Could not determine executable path, using configured BINDIR.");
       (LOG_LVL_DEBUG, ("BINDIR = " ++ BINDIR b)%string)]
  end.

(** The suffix add_default_dirs looks for. *)
Definition install_suffix (b : build) : string :=
  if nuvoton_win32 b then "bin" else BINDIR b.

(** The contents of [exepath] in add_default_dirs when find_suffix is
    called: the result of find_exe_path cut at its last slash. *)
Definition stripped_exepath (b : build) (w : os) : option string :=
  match exe_dir b w with
  | Some d => option_map (store_nul d) (strrchr d "/")
  | None => None
  end.

(** The value of [run_prefix] in add_default_dirs. *)
Definition run_prefix (b : build) (w : os) : option string :=
  option_map (fun e => cut_at e (find_suffix e (install_suffix b)))
             (stripped_exepath b w).

(** The same operating system with another environment. *)
Definition with_getenv (w : os) (env : string -> option string) : os :=
  mkOs (GetModuleFileName w) (proc_pidpath w) (sysctl_pathname w)
       (realpath w) env.

(** [text] ends with [suffix]. *)
Definition ends_with (text suffix : string) : Prop :=
  exists front, text = (front ++ suffix)%string.

(* ------------------------------------------------------------------------- *)
(** ** The run prefix as the specification words it
    The directory of the executable is its path without the trailing file
    name; the run prefix is that directory without the install suffix when
    it ends with it, and that directory otherwise. *)

Definition spec_exe_directory (exe : string) : string :=
  match strrchr exe "/" with
  | Some i => substring 0 i exe
  | None => exe
  end.

(** [Some front] when [text] is [front] followed by [suffix]. *)
Fixpoint spec_strip_suffix (text suffix : string) : option string :=
  if String.eqb text suffix then Some EmptyString
  else match text with
       | EmptyString => None
       | String a rest => option_map (String a) (spec_strip_suffix rest suffix)
       end.

Definition spec_run_prefix (b : build) (exe : string) : string :=
  let dir := spec_exe_directory exe in
  match spec_strip_suffix dir (install_suffix b) with
  | Some front => front
  | None => dir
  end.

(* ------------------------------------------------------------------------- *)
(** ** Builds and systems used as examples *)

(** A Unix build configured with the default prefix. *)
Definition unix_build : build :=
  mkBuild false false false false false false
          "/usr/local/bin" "/usr/local/share/openocd".

(** The installed program on Linux, HOME set. *)
Definition linux_installed : os :=
  mkOs "" None None
       (fun p => if String.eqb p "/proc/self/exe"
                 then Some "/usr/local/bin/openocd" else None)
       (fun n => if String.eqb n "HOME" then Some "/home/user" else None).

(** A system where no /proc entry resolves and BINDIR does not exist. *)
Definition nothing_resolves : os :=
  mkOs "" None None (fun _ => None) (fun _ => None).

(** The program run from the root directory. *)
Definition root_installed : os :=
  mkOs "" None None
       (fun p => if String.eqb p "/proc/self/exe"
                 then Some "/openocd" else None)
       (fun _ => None).

(** The Nuvoton build for Windows. *)
Definition nuvoton_build : build :=
  mkBuild true false false false true true
          "/mingw/bin" "/mingw/share/openocd".

Definition nuvoton_windows : os :=
  mkOs "C:\Nuvoton\OpenOCD\bin\openocd.exe" None None (fun _ => None)
       (fun n => if String.eqb n "APPDATA"
                 then Some "C:/Users/user/AppData/Roaming" else None).

(** The same build started from a directory below one named [bin]. *)
Definition nuvoton_nested : os :=
  mkOs "C:\tools\bin\debug\openocd.exe" None None (fun _ => None)
       (fun _ => None).

(** A build where _WIN32 is defined and no lookup is compiled in (Windows
    under Cygwin: IS_WIN32 and IS_CYGWIN), with a BINDIR in Windows
    notation. *)
Definition cygwin_win32_build : build :=
  mkBuild true true false false true false
          "C:\openocd\bin" "C:\openocd\share\openocd".

(* ------------------------------------------------------------------------- *)
(** ** States after a run, as values *)

Definition register_dirs (dirs : list string) (s : state) : state :=
  mkState (help_flag s) (version_flag s) (script_search_dirs s ++ dirs)
          (config_commands s) (run_lines s) (log s).

Definition enqueue (cmds : list string) (s : state) : state :=
  mkState (help_flag s) (version_flag s) (script_search_dirs s)
          (config_commands s ++ cmds) (run_lines s) (log s).

Definition run_now (ctx : command_context) (lines : list string) (s : state)
  : state :=
  mkState (help_flag s) (version_flag s) (script_search_dirs s)
          (config_commands s) (run_lines s ++ map (pair ctx) lines) (log s).

Definition logged (entries : list (log_level * string)) (s : state) : state :=
  mkState (help_flag s) (version_flag s) (script_search_dirs s)
          (config_commands s) (run_lines s) (log s ++ entries).

(** The three LOG_DEBUG lines of add_default_dirs. *)
Definition builder_log (b : build) (run_prefix : string)
  : list (log_level * string) :=
  [(LOG_LVL_DEBUG, ("bindir=" ++ BINDIR b)%string);
   (LOG_LVL_DEBUG, ("pkgdatadir=" ++ PKGDATADIR b)%string);
   (LOG_LVL_DEBUG, ("run_prefix=" ++ run_prefix)%string)].

(** The state the loop leaves: flags raised where asked, every directory,
    deferred directive, immediate directive and warning in its list. *)
Definition after_calls (ctx : command_context) (calls : list ret_t)
    (s : state) : state :=
  mkState (if existsb asks_help calls then 1 else help_flag s)
          (if existsb asks_version calls then 1 else version_flag s)
          (script_search_dirs s ++ flat_map search_arg calls)
          (config_commands s ++ flat_map deferred calls)
          (run_lines s ++ map (pair ctx) (flat_map immediate calls))
          (log s ++ flat_map warned calls).

(* ------------------------------------------------------------------------- *)
(** ** Strings *)

Lemma strrchr_occurs (s : string) (c : ascii) :
  occurs c s = true <-> exists i, strrchr s c = Some i.
Proof.
  induction s as [|a s IH]; simpl.
  - split; [discriminate | intros [i H]; discriminate].
  - destruct (strrchr s c) as [i|].
    + split; [intros _; eauto | intros _].
      rewrite (proj2 IH) by eauto. apply orb_true_r.
    + destruct (Ascii.eqb a c); simpl.
      * split; eauto.
      * rewrite IH. split; intros [i H]; discriminate.
Qed.

Lemma strrchr_none (s : string) (c : ascii) :
  occurs c s = false <-> strrchr s c = None.
Proof.
  destruct (strrchr s c) as [i|] eqn:E.
  - assert (occurs c s = true) as -> by (apply strrchr_occurs; eauto).
    split; discriminate.
  - split; [reflexivity | intros _].
    destruct (occurs c s) eqn:O; [|reflexivity].
    apply strrchr_occurs in O. destruct O as [i O]. congruence.
Qed.

Lemma length_append (a b : string) :
  String.length (a ++ b) = String.length a + String.length b.
Proof. induction a; simpl; congruence. Qed.

Lemma advance_append (front rest : string) :
  advance (front ++ rest) (String.length front) = rest.
Proof. induction front; simpl; [destruct rest|]; auto. Qed.

Lemma store_nul_append (front rest : string) :
  store_nul (front ++ rest) (String.length front) = front.
Proof.
  unfold store_nul. induction front as [|a front IH]; simpl.
  - destruct rest; reflexivity.
  - now rewrite IH.
Qed.

Lemma store_nul_advance (s : string) (j : nat) :
  j <= String.length s -> s = (store_nul s j ++ advance s j)%string.
Proof.
  unfold store_nul. revert j.
  induction s as [|a s IH]; intros [|j] Hj; simpl in *; try reflexivity; try lia.
  f_equal. apply IH. lia.
Qed.

Lemma length_advance (s : string) (j : nat) :
  String.length (advance s j) = String.length s - j.
Proof.
  revert j. induction s as [|a s IH]; intros [|j]; simpl; auto.
Qed.

Lemma strncmp_refl (a : string) (n : nat) : strncmp a a n = 0%Z.
Proof.
  revert a. induction n as [|n IH]; intros [|x a]; simpl; auto.
  now rewrite Ascii.eqb_refl.
Qed.

Lemma strncmp_zero (a b : string) :
  String.length a = String.length b ->
  strncmp a b (String.length b) = 0%Z -> a = b.
Proof.
  revert b. induction a as [|x a IH]; intros [|y b]; simpl; try discriminate; auto.
  intros Hl. destruct (Ascii.eqb x y) eqn:E.
  - apply Ascii.eqb_eq in E. subst. intros H. f_equal. apply IH; congruence.
  - destruct (N_of_ascii x <? N_of_ascii y)%N; discriminate.
Qed.

(** find_suffix finds the suffix exactly when the text ends with it, at the
    offset where it starts. *)
Lemma find_suffix_some (text suffix : string) (j : nat) :
  find_suffix text suffix = Some j ->
  text = (store_nul text j ++ suffix)%string
  /\ j = String.length text - String.length suffix.
Proof.
  unfold find_suffix, strlen.
  destruct (Nat.eqb_spec (String.length suffix) 0) as [E|E].
  - intros [= <-]. destruct suffix; [|discriminate]. simpl. split; [|lia].
    rewrite (store_nul_advance text (String.length text)) at 1 by lia.
    f_equal. generalize (length_advance text (String.length text)).
    rewrite Nat.sub_diag. now destruct (advance text (String.length text)).
  - destruct (Nat.ltb_spec (String.length text) (String.length suffix)) as [L|L];
      simpl; [discriminate|].
    destruct (Z.eqb_spec
      (strncmp (advance text (String.length text - String.length suffix))
               suffix (String.length suffix)) 0) as [Z|Z]; simpl; [|discriminate].
    intros [= <-]. split; [|reflexivity].
    apply strncmp_zero in Z; [|rewrite length_advance; lia].
    pose proof (store_nul_advance text
                  (String.length text - String.length suffix)) as S.
    rewrite Z in S. apply S. lia.
Qed.

Lemma find_suffix_ends_with (text suffix : string) :
  ends_with text suffix ->
  find_suffix text suffix = Some (String.length text - String.length suffix).
Proof.
  intros [front ->]. unfold find_suffix, strlen.
  rewrite length_append.
  replace (String.length front + String.length suffix - String.length suffix)
    with (String.length front) by lia.
  destruct (Nat.eqb_spec (String.length suffix) 0) as [E|E].
  - rewrite E. f_equal. lia.
  - destruct (Nat.ltb_spec (String.length front + String.length suffix)
                           (String.length suffix)) as [L|L]; [lia|].
    rewrite advance_append, strncmp_refl. reflexivity.
Qed.

Lemma find_suffix_none (text suffix : string) :
  find_suffix text suffix = None -> ~ ends_with text suffix.
Proof.
  intros H E. apply find_suffix_ends_with in E. congruence.
Qed.

(** Cutting at the place find_suffix reports removes the suffix when the text
    ends with it and changes nothing otherwise. *)
Lemma cut_at_find_suffix (text suffix : string) :
  (ends_with text suffix ->
   text = (cut_at text (find_suffix text suffix) ++ suffix)%string)
  /\ (~ ends_with text suffix ->
      cut_at text (find_suffix text suffix) = text).
Proof.
  destruct (find_suffix text suffix) as [j|] eqn:F; simpl; split.
  - intros _. now apply find_suffix_some in F.
  - intros N. exfalso. apply N. apply find_suffix_some in F.
    exists (store_nul text j). tauto.
  - intros E. now apply find_suffix_none in F.
  - reflexivity.
Qed.

(* ------------------------------------------------------------------------- *)
(** ** The executable locator and the default path builder, computed *)

Lemma state_eta (s : state) :
  mkState (help_flag s) (version_flag s) (script_search_dirs s)
          (config_commands s) (run_lines s) (log s) = s.
Proof. now destruct s. Qed.

Lemma find_exe_path_eq (b : build) (w : os) (s : state) :
  find_exe_path b w s =
  match lookup_exe_path b w with
  | Some exepath =>
      match strrchr exepath "/" with
      | Some i => Returns (Some (store_nul exepath i)) s
      | None => Undefined
      end
  | None =>
      Returns (if HAVE_REALPATH b then realpath w (BINDIR b)
               else strdup (BINDIR b))
              (logged (locator_log b w) s)
  end.
Proof.
  unfold find_exe_path, locator_log.
  destruct (lookup_exe_path b w) as [p|].
  - unfold bind, deref. now destruct (strrchr p "/").
  - unfold logged. cbn. now rewrite <- app_assoc.
Qed.

Lemma add_env_dirs_eq (b : build) (w : os) (s : state) :
  add_env_dirs b w s =
  Returns tt (register_dirs
    (opt_list (option_map (fun home => home ++ "/.openocd")%string
                          (getenv w "HOME"))
     ++ opt_list (getenv w "OPENOCD_SCRIPTS")
     ++ (if DEF_WIN32 b then
           opt_list (option_map (fun appdata => appdata ++ "/OpenOCD")%string
                                (getenv w "APPDATA"))
         else [])) s).
Proof.
  unfold add_env_dirs, register_dirs, bind, add_script_search_dir, modify, ret.
  destruct (getenv w "HOME"), (getenv w "OPENOCD_SCRIPTS"), (DEF_WIN32 b);
    try destruct (getenv w "APPDATA"); cbn;
    rewrite <- ?app_assoc, ?app_nil_r, ?state_eta; reflexivity.
Qed.

Lemma add_install_dirs_eq (b : build) (rp : string) (s : state) :
  add_install_dirs b rp s =
  Returns tt (register_dirs
    (if nuvoton_win32 b then
       [(rp ++ "/site")%string; (rp ++ "/scripts")%string]
     else
       [(rp ++ PKGDATADIR b ++ "/site")%string;
        (rp ++ PKGDATADIR b ++ "/scripts")%string]) s).
Proof.
  unfold add_install_dirs, register_dirs, bind, add_script_search_dir, modify.
  destruct (nuvoton_win32 b); cbn; rewrite <- ?app_assoc; reflexivity.
Qed.

(** add_default_dirs in one equation: it is undefined when there is no run
    prefix, and otherwise logs and registers the defaults. *)
Lemma add_default_dirs_eq (b : build) (w : os) (s : state) :
  add_default_dirs b w s =
  match run_prefix b w with
  | Some rp =>
      Returns tt (register_dirs (default_dirs b w rp)
                    (logged (locator_log b w ++ builder_log b rp) s))
  | None => Undefined
  end.
Proof.
  unfold add_default_dirs, bind at 1. rewrite find_exe_path_eq.
  unfold run_prefix, stripped_exepath, exe_dir, locator_log, install_suffix.
  assert (Tail : forall d s0,
    (exepath <- deref (Some d) ;;
     i <- deref (strrchr exepath "/") ;;
     LOG_DEBUG ("bindir=" ++ BINDIR b) ;;
     LOG_DEBUG ("pkgdatadir=" ++ PKGDATADIR b) ;;
     LOG_DEBUG ("run_prefix=" ++ cut_at (store_nul exepath i)
        (if nuvoton_win32 b then find_suffix (store_nul exepath i) "bin"
         else find_suffix (store_nul exepath i) (BINDIR b))) ;;
     add_env_dirs b w ;;
     add_install_dirs b (cut_at (store_nul exepath i)
        (if nuvoton_win32 b then find_suffix (store_nul exepath i) "bin"
         else find_suffix (store_nul exepath i) (BINDIR b)))) s0 =
    match option_map (fun e => cut_at e
            (find_suffix e (if nuvoton_win32 b then "bin" else BINDIR b)))
            (option_map (store_nul d) (strrchr d "/")) with
    | Some rp => Returns tt (register_dirs (default_dirs b w rp)
                               (logged (builder_log b rp) s0))
    | None => Undefined
    end).
  { intros d s0. unfold bind at 1. cbn [deref]. unfold bind at 1.
    destruct (strrchr d "/") as [i|]; cbn [deref option_map]; [|reflexivity].
    replace (if nuvoton_win32 b then find_suffix (store_nul d i) "bin"
             else find_suffix (store_nul d i) (BINDIR b))
      with (find_suffix (store_nul d i)
              (if nuvoton_win32 b then "bin" else BINDIR b))
      by now destruct (nuvoton_win32 b).
    set (rp := cut_at _ _).
    unfold bind, LOG_DEBUG, log_printf, modify. cbn.
    rewrite add_env_dirs_eq. rewrite add_install_dirs_eq.
    unfold register_dirs, logged, default_dirs, builder_log. cbn.
    rewrite <- !app_assoc. reflexivity. }
  destruct (lookup_exe_path b w) as [p|].
  - destruct (strrchr p "/") as [i|]; cbn [option_map]; [|reflexivity].
    rewrite Tail. destruct (option_map _ _); [|reflexivity].
    unfold logged. cbn. reflexivity.
  - destruct (if HAVE_REALPATH b then realpath w (BINDIR b)
              else strdup (BINDIR b)) as [d|]; [|reflexivity].
    rewrite Tail. destruct (option_map _ _); [|reflexivity].
    unfold register_dirs, logged. cbn. now rewrite <- app_assoc.
Qed.

(* ------------------------------------------------------------------------- *)
(** ** The loop *)

Lemma chr_inj (x y : ascii) : chr x = chr y -> x = y.
Proof.
  unfold chr. intros H. apply N2Z.inj in H.
  rewrite <- (ascii_N_embedding x), <- (ascii_N_embedding y). now f_equal.
Qed.

Ltac case_c c :=
  repeat match goal with
  | |- context [Z.eqb c ?k] =>
      destruct (Z.eqb_spec c k) as [->|?]; cbn
  end.

(** One turn of the loop on a result getopt_long can give. *)
Lemma loop_turn (ctx : command_context) (r : ret_t) (s : state) :
  well_formed r = true ->
  (store_flag (g_store r) ;; option_switch ctx (g_c r) (g_optarg r)) s
  = Returns tt (after_calls ctx [r] s).
Proof.
  destruct r as [c optarg store]. unfold well_formed, after_calls. cbn.
  destruct store as [[f v]|].
  - intros H. apply andb_true_iff in H. destruct H as [Hv Hc].
    apply Z.eqb_eq in Hv, Hc. subst.
    destruct f; cbn; rewrite ?app_nil_r; reflexivity.
  - unfold asks_help, asks_version, search_arg, deferred, immediate, warned,
      option_switch, bind. cbn.
    intros H. case_c c; try discriminate;
      destruct optarg; try discriminate; cbn;
      rewrite ?app_nil_r, ?state_eta; reflexivity.
Qed.

Lemma after_calls_cons (ctx : command_context) (r : ret_t)
    (calls : list ret_t) (s : state) :
  after_calls ctx calls (after_calls ctx [r] s) = after_calls ctx (r :: calls) s.
Proof.
  unfold after_calls. cbn. rewrite !app_nil_r, !orb_false_r.
  rewrite map_app, <- !app_assoc.
  destruct (asks_help r), (asks_version r),
    (existsb asks_help calls), (existsb asks_version calls); reflexivity.
Qed.

Lemma after_calls_nil (ctx : command_context) (s : state) :
  after_calls ctx [] s = s.
Proof. unfold after_calls. cbn. rewrite !app_nil_r. apply state_eta. Qed.

Lemma after_calls_app (ctx : command_context) (l1 l2 : list ret_t) (s : state) :
  after_calls ctx (l1 ++ l2) s = after_calls ctx l2 (after_calls ctx l1 s).
Proof.
  revert s. induction l1 as [|r l1 IH]; intros s.
  - now rewrite after_calls_nil.
  - cbn [app].
    rewrite <- (after_calls_cons ctx r (l1 ++ l2)), <- (after_calls_cons ctx r l1).
    apply IH.
Qed.

(** The loop returns, and leaves the state [after_calls] describes. *)
Lemma parse_loop_eq (ctx : command_context) (calls : list ret_t) (s : state) :
  forallb well_formed calls = true ->
  parse_loop ctx calls s = Returns tt (after_calls ctx calls s).
Proof.
  revert s. induction calls as [|r calls IH]; intros s H.
  - now rewrite after_calls_nil.
  - cbn in H. apply andb_true_iff in H. destruct H as [Hr Hcalls].
    pose proof (loop_turn ctx r s Hr) as T.
    cbn [parse_loop]. unfold bind in T |- *.
    destruct (store_flag (g_store r) s) as [[] s1| |]; try discriminate.
    destruct (option_switch ctx (g_c r) (g_optarg r) s1) as [[] s2| |];
      try discriminate.
    injection T as ->. rewrite IH by assumption. now rewrite after_calls_cons.
Qed.

(** The loop over two stretches of results is the loop over the first, then
    over the second. *)
Lemma parse_loop_app (ctx : command_context) (l1 l2 : list ret_t) (s : state) :
  parse_loop ctx (l1 ++ l2) s = (parse_loop ctx l1 ;; parse_loop ctx l2) s.
Proof.
  revert s. induction l1 as [|r l1 IH]; intros s; [reflexivity|].
  cbn [app parse_loop]. unfold bind in *.
  destruct (store_flag (g_store r) s) as [[] s1| |]; try reflexivity.
  destruct (option_switch ctx (g_c r) (g_optarg r) s1) as [[] s2| |];
    try reflexivity.
  apply IH.
Qed.

(* ------------------------------------------------------------------------- *)
(** ** What getopt_long reports for the options of options.c *)

Lemma matched_well_formed (e : option_entry) (optarg : option string) :
  In e long_options ->
  (has_arg e = required_argument -> optarg <> None) ->
  well_formed (matched e optarg) = true.
Proof.
  intros H A. cbn in H.
  repeat (destruct H as [<-|H]; [try reflexivity|]); try contradiction;
    cbn in *; destruct optarg; try reflexivity; now destruct A.
Qed.

Lemma find_long_in (table : list option_entry) (nm : string)
    (e : option_entry) :
  find_long table nm = Some e -> In e table.
Proof.
  unfold find_long.
  destruct (find _ table) as [e'|] eqn:F.
  - intros [= <-]. now apply find_some in F.
  - destruct (filter _ table) as [|e' others] eqn:Fl; [discriminate|].
    destruct (forallb _ others); [|discriminate].
    intros [= <-].
    assert (In e' (filter (fun e => prefix nm (name e)) table)) as I
      by (rewrite Fl; now left).
    now apply filter_In in I.
Qed.

Lemma long_option_well_formed (body : string) (next : option string) :
  well_formed (fst (long_option long_options body next)) = true.
Proof.
  unfold long_option. destruct (split_eq body) as [nm value].
  destruct (find_long long_options nm) as [e|] eqn:F; [|reflexivity].
  apply find_long_in in F.
  destruct value as [v|], (has_arg e) eqn:A, next as [a|];
    try reflexivity; cbn [fst];
    apply matched_well_formed; auto; congruence.
Qed.

Lemma chr_eqb_lookup (c k : ascii) (ha : has_arg_t) :
  short_lookup optstring c = Some ha ->
  short_lookup optstring k <> Some ha ->
  Z.eqb (chr c) (chr k) = false.
Proof.
  intros L N. destruct (Z.eqb_spec (chr c) (chr k)) as [E|E]; [|reflexivity].
  apply chr_inj in E. congruence.
Qed.

Lemma letter_well_formed (c : ascii) (ha : has_arg_t)
    (optarg : option string) :
  short_lookup optstring c = Some ha ->
  (ha = required_argument -> optarg <> None) ->
  well_formed (mkRet (chr c) optarg None) = true.
Proof.
  intros L A. unfold well_formed. cbn [g_store g_c g_optarg].
  destruct optarg; [apply orb_true_r|].
  destruct ha; try (now destruct A);
    rewrite (chr_eqb_lookup c "f" _ L), (chr_eqb_lookup c "s" _ L);
    (reflexivity || discriminate).
Qed.

Lemma short_options_well_formed (chars : string) (next : option string) :
  forallb well_formed (fst (short_options optstring chars next)) = true.
Proof.
  induction chars as [|c rest IH]; [reflexivity|].
  cbn [short_options].
  destruct (Ascii.eqb c ":") eqn:Colon.
  - destruct (short_options optstring rest next). cbn in *. exact IH.
  - destruct (short_lookup optstring c) as [ha|] eqn:L.
    + destruct ha.
      * destruct (short_options optstring rest next) as [l took].
        cbn [fst forallb] in *. rewrite IH, andb_true_r.
        apply (letter_well_formed c _ _ L). discriminate.
      * destruct rest, next; cbn [fst forallb]; rewrite ?andb_true_r;
          try reflexivity;
          apply (letter_well_formed c _ _ L); discriminate.
      * destruct rest; cbn [fst forallb]; rewrite ?andb_true_r;
          apply (letter_well_formed c _ _ L); discriminate.
    + destruct (short_options optstring rest next). cbn in *. exact IH.
Qed.

Lemma returns_well_formed (args : list string) :
  forallb well_formed (returns long_options optstring args) = true.
Proof.
  remember (List.length args) as n eqn:Hn.
  assert (Hle : List.length args <= n) by lia. clear Hn.
  revert args Hle. induction n as [|n IH]; intros [|arg rest] Hle;
    try reflexivity; cbn in Hle; [lia|].
  assert (Rest : forallb well_formed (returns long_options optstring rest) = true)
    by (apply IH; lia).
  assert (Skip : forall took,
    forallb well_formed
      match took, rest with
      | true, _ :: rest' => returns long_options optstring rest'
      | _, _ => returns long_options optstring rest
      end = true).
  { intros [|]; [|exact Rest]. destruct rest as [|a rest']; [reflexivity|].
    apply IH. cbn in Hle. lia. }
  cbn [returns]. destruct (classify arg) as [|body|chars|].
  - reflexivity.
  - pose proof (long_option_well_formed body (hd_error rest)) as W.
    destruct (long_option long_options body (hd_error rest)) as [r took].
    cbn [fst] in W. cbn [forallb]. now rewrite W, Skip.
  - pose proof (short_options_well_formed chars (hd_error rest)) as W.
    destruct (short_options optstring chars (hd_error rest)) as [l took].
    cbn [fst] in W. now rewrite forallb_app, W, Skip.
  - exact Rest.
Qed.

Lemma getopt_long_well_formed (argv : list string) :
  forallb well_formed (getopt_long argv) = true.
Proof. apply returns_well_formed. Qed.

(* ------------------------------------------------------------------------- *)
(** ** parse_cmdline_args, computed *)

Lemma logged_nil (s : state) : logged [] s = s.
Proof. unfold logged. rewrite app_nil_r. apply state_eta. Qed.

Lemma logged_logged (l1 l2 : list (log_level * string)) (s : state) :
  logged l2 (logged l1 s) = logged (l1 ++ l2) s.
Proof. unfold logged. cbn. now rewrite app_assoc. Qed.

Lemma print_lines_eq (lines : list string) (s : state) :
  print_lines lines s
  = Returns tt (logged (map (pair LOG_LVL_OUTPUT) lines) s).
Proof.
  revert s. induction lines as [|l lines IH]; intros s; cbn [print_lines map].
  - now rewrite logged_nil.
  - unfold bind, LOG_OUTPUT, log_printf, modify. rewrite IH.
    unfold logged. cbn. now rewrite <- app_assoc.
Qed.

Lemma after_loop_help (b : build) (w : os) (s : state) :
  help_flag s <> 0%Z ->
  after_loop b w s
  = Exits (-1) (logged (map (pair LOG_LVL_OUTPUT) usage) s).
Proof.
  intros H. unfold after_loop.
  destruct (Z.eqb_spec (help_flag s) 0) as [E|_]; [contradiction|].
  cbn [negb]. unfold bind. now rewrite print_lines_eq.
Qed.

Lemma after_loop_version (b : build) (w : os) (s : state) :
  help_flag s = 0%Z -> version_flag s <> 0%Z ->
  after_loop b w s = Exits 0 s.
Proof.
  intros H V. unfold after_loop. rewrite H. cbn.
  destruct (Z.eqb_spec (version_flag s) 0) as [E|_]; [contradiction|].
  reflexivity.
Qed.

Lemma after_loop_neither (b : build) (w : os) (s : state) :
  help_flag s = 0%Z -> version_flag s = 0%Z ->
  after_loop b w s = (add_default_dirs b w ;; ret ERROR_OK) s.
Proof. intros H V. unfold after_loop. now rewrite H, V. Qed.

(** parse_cmdline_args is the loop, which always returns, followed by the
    tests of the two flags. *)
Lemma parse_cmdline_args_eq (b : build) (w : os) (ctx : command_context)
    (argv : list string) (s : state) :
  parse_cmdline_args b w ctx argv s
  = after_loop b w (after_calls ctx (getopt_long argv) s).
Proof.
  unfold parse_cmdline_args, bind.
  now rewrite parse_loop_eq by apply getopt_long_well_formed.
Qed.

(** With neither flag raised the function returns exactly when there is a
    run prefix, and then with ERROR_OK. *)
Lemma parse_cmdline_args_plain (b : build) (w : os) (ctx : command_context)
    (argv : list string) (s : state) :
  help_flag s = 0%Z -> version_flag s = 0%Z ->
  existsb asks_help (getopt_long argv) = false ->
  existsb asks_version (getopt_long argv) = false ->
  parse_cmdline_args b w ctx argv s =
  match run_prefix b w with
  | Some rp =>
      Returns ERROR_OK
        (register_dirs (default_dirs b w rp)
           (logged (locator_log b w ++ builder_log b rp)
              (after_calls ctx (getopt_long argv) s)))
  | None => Undefined
  end.
Proof.
  intros H V NH NV. rewrite parse_cmdline_args_eq.
  rewrite after_loop_neither by (cbn; rewrite ?NH, ?NV; assumption).
  unfold bind. rewrite add_default_dirs_eq.
  now destruct (run_prefix b w).
Qed.

Lemma run_prefix_with_getenv (b : build) (w : os)
    (env : string -> option string) :
  run_prefix b (with_getenv w env) = run_prefix b w.
Proof. reflexivity. Qed.

(* ------------------------------------------------------------------------- *)
(** ** Options outside the grammar *)

(** The letter [x] is not in the option string and [bogus] is no long
    option: getopt_long returns ['?'] for them and goes on. *)
Example getopt_long_unrecognized :
  getopt_long ["openocd"; "-x"; "-s"; "tcl"]
  = [unrecognized; mkRet (chr "s") (Some "tcl") None]
  /\ getopt_long ["openocd"; "--bogus"; "-s"; "tcl"]
     = [unrecognized; mkRet (chr "s") (Some "tcl") None].
Proof. split; reflexivity. Qed.

(** C1, as stated, fails: with the unrecognised option [-x] in the argument
    vector, parse_cmdline_args does not exit.  It goes on to the [-s] after
    it, registers its directory, adds the defaults and returns ERROR_OK. *)
Lemma unrecognized_option_counterexample :
  In unrecognized (getopt_long ["openocd"; "-x"; "-s"; "tcl"])
  /\ parse_cmdline_args unix_build linux_installed 0
       ["openocd"; "-x"; "-s"; "tcl"] initial_state
     = Returns ERROR_OK
         (mkState 0 0
            ["tcl"; "/home/user/.openocd";
             "/usr/local/usr/local/share/openocd/site";
             "/usr/local/usr/local/share/openocd/scripts"]
            [] []
            [(LOG_LVL_DEBUG, "bindir=/usr/local/bin");
             (LOG_LVL_DEBUG, "pkgdatadir=/usr/local/share/openocd");
             (LOG_LVL_DEBUG, "run_prefix=/usr/local")])
  /\ ~ (exists status s',
          parse_cmdline_args unix_build linux_installed 0
            ["openocd"; "-x"; "-s"; "tcl"] initial_state = Exits status s').
Proof.
  split; [now left|]. split; [reflexivity|].
  intros (status & s' & H). discriminate H.
Qed.

(** C1, amended: an option outside the declared grammar, for which
    getopt_long returns ['?'], is passed over by parse_cmdline_args.  No case
    of the switch matches it, the loop goes on with the remaining arguments,
    and the function ends as the options before and after it decide: the
    usage text and [exit(-1)] when help was asked, [exit(0)] when version was
    asked, and otherwise the default directories and ERROR_OK. *)
Theorem unrecognized_option_is_passed_over (b : build) (w : os)
    (ctx : command_context) (argv : list string)
    (before after : list ret_t) (r : ret_t) (s : state) :
  getopt_long argv = before ++ r :: after ->
  g_c r = chr "?" ->
  parse_loop ctx (before ++ [r]) s = parse_loop ctx before s
  /\ parse_cmdline_args b w ctx argv s
     = (parse_loop ctx (before ++ after) ;; after_loop b w) s
  /\ parse_cmdline_args b w ctx argv s
     = after_loop b w (after_calls ctx (before ++ after) s).
Proof.
  intros G Q.
  pose proof (getopt_long_well_formed argv) as W. rewrite G in W.
  rewrite forallb_app in W. apply andb_true_iff in W.
  destruct W as [Wb W]. cbn [forallb] in W. apply andb_true_iff in W.
  destruct W as [Wr Wa].
  assert (Turn : forall s0, parse_loop ctx [r] s0 = Returns tt s0).
  { intros s0. destruct r as [c optarg store]. cbn in Q. subst c.
    unfold well_formed in Wr. cbn in Wr.
    destruct store as [[f v]|]; [now rewrite andb_false_r in Wr|].
    reflexivity. }
  assert (Skip : forall rest,
    parse_loop ctx (before ++ r :: rest) s = parse_loop ctx (before ++ rest) s).
  { intros rest. rewrite !parse_loop_app. unfold bind.
    destruct (parse_loop ctx before s) as [[] s1| |]; try reflexivity.
    change (r :: rest) with ([r] ++ rest). rewrite parse_loop_app.
    unfold bind. now rewrite Turn. }
  split; [|split].
  - rewrite Skip. now rewrite app_nil_r.
  - unfold parse_cmdline_args, bind. now rewrite G, Skip.
  - unfold parse_cmdline_args, bind. rewrite G, Skip.
    rewrite parse_loop_eq; [reflexivity|].
    rewrite forallb_app. now rewrite Wb, Wa.
Qed.

Lemma unrecognized_option_is_passed_over_witness :
  getopt_long ["openocd"; "-x"; "-s"; "tcl"]
  = [] ++ unrecognized :: [mkRet (chr "s") (Some "tcl") None]
  /\ g_c unrecognized = chr "?"
  /\ parse_cmdline_args unix_build linux_installed 0
       ["openocd"; "-x"; "-s"; "tcl"] initial_state
     = after_loop unix_build linux_installed
         (after_calls 0 ([] ++ [mkRet (chr "s") (Some "tcl") None])
            initial_state).
Proof.
  split; [reflexivity|]. split; [reflexivity|].
  apply (unrecognized_option_is_passed_over unix_build linux_installed 0
           ["openocd"; "-x"; "-s"; "tcl"] [] _ unrecognized initial_state);
    reflexivity.
Defined.

(* ------------------------------------------------------------------------- *)
(** ** The run prefix and the executable locator at work *)

(** C2, evaluated where it fails.  The program is installed as
    /usr/local/bin/openocd and configured with BINDIR /usr/local/bin.  Its
    directory is /usr/local/bin, which find_exe_path returns; with BINDIR
    removed the run prefix of the claim is empty.  add_default_dirs cuts the
    directory at its last slash once more before it looks for the suffix, so
    BINDIR no longer ends the path, and the run prefix is /usr/local: the
    directory [bin] has been removed as well, and the site and scripts
    directories carry the prefix twice. *)
Theorem run_prefix_loses_a_directory :
  lookup_exe_path unix_build linux_installed = Some "/usr/local/bin/openocd"
  /\ exe_dir unix_build linux_installed = Some "/usr/local/bin"
  /\ spec_exe_directory "/usr/local/bin/openocd" = "/usr/local/bin"
  /\ spec_run_prefix unix_build "/usr/local/bin/openocd" = ""
  /\ run_prefix unix_build linux_installed = Some "/usr/local"
  /\ add_default_dirs unix_build linux_installed initial_state
     = Returns tt
         (mkState 0 0
            ["/home/user/.openocd";
             "/usr/local/usr/local/share/openocd/site";
             "/usr/local/usr/local/share/openocd/scripts"]
            [] []
            [(LOG_LVL_DEBUG, "bindir=/usr/local/bin");
             (LOG_LVL_DEBUG, "pkgdatadir=/usr/local/share/openocd");
             (LOG_LVL_DEBUG, "run_prefix=/usr/local")]).
Proof. repeat split; reflexivity. Qed.

(** C3, evaluated where it fails.  On a Unix build where no /proc entry
    resolves, find_exe_path logs its warning and falls back to
    [realpath(BINDIR, NULL)]; when BINDIR does not exist that is NULL, and
    NULL is what find_exe_path returns.  And for a program that sits in the
    root directory the string returned is empty. *)
Theorem find_exe_path_returns_null :
  find_exe_path unix_build nothing_resolves initial_state
  = Returns None
      (mkState 0 0 [] [] []
         [(LOG_LVL_WARNING,
           "Could not determine executable path, using configured BINDIR.");
          (LOG_LVL_DEBUG, "BINDIR = /usr/local/bin")])
  /\ find_exe_path unix_build root_installed initial_state
     = Returns (Some "") initial_state.
Proof. split; reflexivity. Qed.

(* ------------------------------------------------------------------------- *)
(** ** The search path *)

(** C4: when neither help nor version is asked, parse_cmdline_args that
    returns has first run the whole loop, which registered the directory of
    every [-s]/[--search] in order, and only then add_default_dirs, which
    appended the defaults: in the search path every [-s] directory stands
    before every default directory. *)
Theorem search_dirs_precede_defaults (b : build) (w : os)
    (ctx : command_context) (argv : list string) (s s' : state) (r : Z) :
  help_flag s = 0%Z -> version_flag s = 0%Z ->
  existsb asks_help (getopt_long argv) = false ->
  existsb asks_version (getopt_long argv) = false ->
  parse_cmdline_args b w ctx argv s = Returns r s' ->
  exists s1 defaults,
    parse_loop ctx (getopt_long argv) s = Returns tt s1
    /\ script_search_dirs s1
       = script_search_dirs s ++ flat_map search_arg (getopt_long argv)
    /\ add_default_dirs b w s1 = Returns tt s'
    /\ script_search_dirs s' = script_search_dirs s1 ++ defaults
    /\ script_search_dirs s'
       = script_search_dirs s ++ flat_map search_arg (getopt_long argv)
         ++ defaults
    /\ (forall dir dflt,
          In dir (flat_map search_arg (getopt_long argv)) ->
          In dflt defaults ->
          exists l1 l2 l3,
            script_search_dirs s' = l1 ++ dir :: l2 ++ dflt :: l3).
Proof.
  intros H V NH NV R.
  rewrite parse_cmdline_args_plain in R by assumption.
  destruct (run_prefix b w) as [rp|] eqn:P; [|discriminate].
  injection R as <- <-.
  exists (after_calls ctx (getopt_long argv) s), (default_dirs b w rp).
  split; [apply parse_loop_eq, getopt_long_well_formed|].
  split; [reflexivity|].
  split; [now rewrite add_default_dirs_eq, P|].
  split; [reflexivity|].
  split; [cbn; now rewrite app_assoc|].
  intros dir dflt I J.
  apply in_split in I. destruct I as (a1 & a2 & I).
  apply in_split in J. destruct J as (d1 & d2 & J).
  exists (script_search_dirs s ++ a1), (a2 ++ d1), d2.
  cbn. rewrite I, J. now rewrite <- !app_assoc.
Qed.

Lemma search_dirs_precede_defaults_witness :
  help_flag initial_state = 0%Z /\ version_flag initial_state = 0%Z
  /\ existsb asks_help
       (getopt_long ["openocd"; "-s"; "tcl"; "-f"; "board.cfg"; "--search=my"])
     = false
  /\ existsb asks_version
       (getopt_long ["openocd"; "-s"; "tcl"; "-f"; "board.cfg"; "--search=my"])
     = false
  /\ parse_cmdline_args unix_build linux_installed 0
       ["openocd"; "-s"; "tcl"; "-f"; "board.cfg"; "--search=my"]
       initial_state
     = Returns ERROR_OK
         (mkState 0 0
            ["tcl"; "my"; "/home/user/.openocd";
             "/usr/local/usr/local/share/openocd/site";
             "/usr/local/usr/local/share/openocd/scripts"]
            ["script {board.cfg}"] []
            [(LOG_LVL_DEBUG, "bindir=/usr/local/bin");
             (LOG_LVL_DEBUG, "pkgdatadir=/usr/local/share/openocd");
             (LOG_LVL_DEBUG, "run_prefix=/usr/local")])
  /\ exists s1 defaults,
       parse_loop 0
         (getopt_long ["openocd"; "-s"; "tcl"; "-f"; "board.cfg"; "--search=my"])
         initial_state = Returns tt s1
       /\ script_search_dirs s1 = ["tcl"; "my"]
       /\ ["tcl"; "my"; "/home/user/.openocd";
           "/usr/local/usr/local/share/openocd/site";
           "/usr/local/usr/local/share/openocd/scripts"]
          = ["tcl"; "my"] ++ defaults.
Proof.
  assert (R : parse_cmdline_args unix_build linux_installed 0
       ["openocd"; "-s"; "tcl"; "-f"; "board.cfg"; "--search=my"]
       initial_state
     = Returns ERROR_OK
         (mkState 0 0
            ["tcl"; "my"; "/home/user/.openocd";
             "/usr/local/usr/local/share/openocd/site";
             "/usr/local/usr/local/share/openocd/scripts"]
            ["script {board.cfg}"] []
            [(LOG_LVL_DEBUG, "bindir=/usr/local/bin");
             (LOG_LVL_DEBUG, "pkgdatadir=/usr/local/share/openocd");
             (LOG_LVL_DEBUG, "run_prefix=/usr/local")]))
    by (vm_compute; reflexivity).
  assert (NH : existsb asks_help
       (getopt_long ["openocd"; "-s"; "tcl"; "-f"; "board.cfg"; "--search=my"])
     = false) by (vm_compute; reflexivity).
  assert (NV : existsb asks_version
       (getopt_long ["openocd"; "-s"; "tcl"; "-f"; "board.cfg"; "--search=my"])
     = false) by (vm_compute; reflexivity).
  repeat (split; [assumption || reflexivity|]).
  destruct (search_dirs_precede_defaults unix_build linux_installed 0 _
              initial_state _ _ eq_refl eq_refl NH NV R)
    as (s1 & defaults & L & D1 & A & D & E & _).
  exists s1, defaults. split; [exact L|]. split; [exact D1|].
  exact E.
Defined.

(** C5: when neither help nor version is asked and parse_cmdline_args
    returns, it returns ERROR_OK and the search path is what it was, then the
    [-s] directories in the order given, then the defaults in this order:
    HOME/.openocd if HOME is set, the value of OPENOCD_SCRIPTS if set,
    APPDATA/OpenOCD where _WIN32 is defined and APPDATA is set, the site
    directory and the scripts directory under the run prefix.  A variable
    that is not set leaves its entry out and nothing else changes: the
    function returns ERROR_OK whatever the environment holds. *)
Theorem search_path_after_parsing (b : build) (w : os)
    (ctx : command_context) (argv : list string) (s s' : state) (r : Z) :
  help_flag s = 0%Z -> version_flag s = 0%Z ->
  existsb asks_help (getopt_long argv) = false ->
  existsb asks_version (getopt_long argv) = false ->
  parse_cmdline_args b w ctx argv s = Returns r s' ->
  r = ERROR_OK
  /\ (exists rp,
        run_prefix b w = Some rp
        /\ script_search_dirs s'
           = script_search_dirs s ++ flat_map search_arg (getopt_long argv)
             ++ default_dirs b w rp)
  /\ (forall env, exists rp s'',
        parse_cmdline_args b (with_getenv w env) ctx argv s
        = Returns ERROR_OK s''
        /\ script_search_dirs s''
           = script_search_dirs s ++ flat_map search_arg (getopt_long argv)
             ++ default_dirs b (with_getenv w env) rp).
Proof.
  intros H V NH NV R.
  rewrite parse_cmdline_args_plain in R by assumption.
  destruct (run_prefix b w) as [rp|] eqn:P; [|discriminate].
  injection R as <- <-.
  split; [reflexivity|]. split.
  - exists rp. split; [reflexivity|]. cbn. now rewrite app_assoc.
  - intros env. rewrite parse_cmdline_args_plain by assumption.
    rewrite run_prefix_with_getenv, P. exists rp. eexists.
    split; [reflexivity|]. cbn. now rewrite app_assoc.
Qed.

Lemma search_path_after_parsing_witness :
  help_flag initial_state = 0%Z /\ version_flag initial_state = 0%Z
  /\ existsb asks_help (getopt_long ["openocd"; "-s"; "tcl"; "-d3"; "-s"; "my"])
     = false
  /\ existsb asks_version (getopt_long ["openocd"; "-s"; "tcl"; "-d3"; "-s"; "my"])
     = false
  /\ parse_cmdline_args nuvoton_build nuvoton_windows 0
       ["openocd"; "-s"; "tcl"; "-d3"; "-s"; "my"] initial_state
     = Returns ERROR_OK
         (mkState 0 0
            ["tcl"; "my"; "C:/Users/user/AppData/Roaming/OpenOCD";
             "C:/Nuvoton/OpenOCD/site"; "C:/Nuvoton/OpenOCD/scripts"]
            [] [(0, "debug_level 3")]
            [(LOG_LVL_DEBUG, "bindir=/mingw/bin");
             (LOG_LVL_DEBUG, "pkgdatadir=/mingw/share/openocd");
             (LOG_LVL_DEBUG, "run_prefix=C:/Nuvoton/OpenOCD")])
  /\ exists rp,
       run_prefix nuvoton_build nuvoton_windows = Some rp
       /\ ["tcl"; "my"; "C:/Users/user/AppData/Roaming/OpenOCD";
           "C:/Nuvoton/OpenOCD/site"; "C:/Nuvoton/OpenOCD/scripts"]
          = [] ++ flat_map search_arg
                    (getopt_long ["openocd"; "-s"; "tcl"; "-d3"; "-s"; "my"])
            ++ default_dirs nuvoton_build nuvoton_windows rp.
Proof.
  assert (R : parse_cmdline_args nuvoton_build nuvoton_windows 0
       ["openocd"; "-s"; "tcl"; "-d3"; "-s"; "my"] initial_state
     = Returns ERROR_OK
         (mkState 0 0
            ["tcl"; "my"; "C:/Users/user/AppData/Roaming/OpenOCD";
             "C:/Nuvoton/OpenOCD/site"; "C:/Nuvoton/OpenOCD/scripts"]
            [] [(0, "debug_level 3")]
            [(LOG_LVL_DEBUG, "bindir=/mingw/bin");
             (LOG_LVL_DEBUG, "pkgdatadir=/mingw/share/openocd");
             (LOG_LVL_DEBUG, "run_prefix=C:/Nuvoton/OpenOCD")]))
    by (vm_compute; reflexivity).
  assert (NH : existsb asks_help
       (getopt_long ["openocd"; "-s"; "tcl"; "-d3"; "-s"; "my"]) = false)
    by (vm_compute; reflexivity).
  assert (NV : existsb asks_version
       (getopt_long ["openocd"; "-s"; "tcl"; "-d3"; "-s"; "my"]) = false)
    by (vm_compute; reflexivity).
  repeat (split; [assumption || reflexivity|]).
  exact (proj1 (proj2 (search_path_after_parsing
                         nuvoton_build nuvoton_windows 0 _ initial_state _ _
                         eq_refl eq_refl NH NV R))).
Defined.

(* ------------------------------------------------------------------------- *)
(** ** Help and version *)

Lemma help_flag_after_calls (ctx : command_context) (calls : list ret_t)
    (s : state) :
  help_flag (after_calls ctx calls s)
  = if existsb asks_help calls then 1%Z else help_flag s.
Proof. reflexivity. Qed.

(** C6: when help is asked, whatever else the argument vector holds,
    parse_cmdline_args runs the loop, prints the usage text and calls
    [exit(-1)], a status that is not zero: the version flag is not looked at
    and add_default_dirs does not run, so the search path holds the [-s]
    directories only, and the queue holds every deferred directive, none
    taken out.  When version is asked and help is not, the process exits
    with status 0 right after the loop. *)
Theorem help_exits_before_anything_else :
  (forall (b : build) (w : os) (ctx : command_context)
          (argv : list string) (s : state),
      existsb asks_help (getopt_long argv) = true ->
      exists s1 s',
        parse_loop ctx (getopt_long argv) s = Returns tt s1
        /\ parse_cmdline_args b w ctx argv s = Exits (-1) s'
        /\ wait_status (-1) <> 0%Z
        /\ log s' = log s1 ++ map (pair LOG_LVL_OUTPUT) usage
        /\ script_search_dirs s'
           = script_search_dirs s ++ flat_map search_arg (getopt_long argv)
        /\ config_commands s'
           = config_commands s ++ flat_map deferred (getopt_long argv))
  /\ (forall (b : build) (w : os) (ctx : command_context)
             (argv : list string) (s : state),
         help_flag s = 0%Z ->
         existsb asks_help (getopt_long argv) = false ->
         existsb asks_version (getopt_long argv) = true ->
         exists s1,
           parse_loop ctx (getopt_long argv) s = Returns tt s1
           /\ parse_cmdline_args b w ctx argv s = Exits 0 s1
           /\ wait_status 0 = 0%Z
           /\ script_search_dirs s1
              = script_search_dirs s ++ flat_map search_arg (getopt_long argv)).
Proof.
  split.
  - intros b w ctx argv s A.
    exists (after_calls ctx (getopt_long argv) s).
    exists (logged (map (pair LOG_LVL_OUTPUT) usage)
                   (after_calls ctx (getopt_long argv) s)).
    split; [apply parse_loop_eq, getopt_long_well_formed|].
    split.
    + rewrite parse_cmdline_args_eq. apply after_loop_help.
      rewrite help_flag_after_calls, A. discriminate.
    + repeat split. discriminate.
  - intros b w ctx argv s H NA V.
    exists (after_calls ctx (getopt_long argv) s).
    split; [apply parse_loop_eq, getopt_long_well_formed|].
    split; [|repeat split].
    rewrite parse_cmdline_args_eq. apply after_loop_version.
    + now rewrite help_flag_after_calls, NA.
    + cbn. rewrite V. discriminate.
Qed.

Lemma help_exits_before_anything_else_witness :
  (existsb asks_help
     (getopt_long ["openocd"; "-f"; "a.cfg"; "-h"; "-v"; "-s"; "x"; "-c"; "init"])
   = true
   /\ exists s1 s',
        parse_loop 0
          (getopt_long ["openocd"; "-f"; "a.cfg"; "-h"; "-v"; "-s"; "x"; "-c"; "init"])
          initial_state = Returns tt s1
        /\ parse_cmdline_args unix_build linux_installed 0
             ["openocd"; "-f"; "a.cfg"; "-h"; "-v"; "-s"; "x"; "-c"; "init"]
             initial_state = Exits (-1) s'
        /\ script_search_dirs s' = ["x"]
        /\ config_commands s' = ["script {a.cfg}"; "init"])
  /\ (help_flag initial_state = 0%Z
      /\ existsb asks_help
           (getopt_long ["openocd"; "-f"; "a.cfg"; "--version"; "-s"; "x"])
         = false
      /\ existsb asks_version
           (getopt_long ["openocd"; "-f"; "a.cfg"; "--version"; "-s"; "x"])
         = true
      /\ exists s1,
           parse_cmdline_args unix_build linux_installed 0
             ["openocd"; "-f"; "a.cfg"; "--version"; "-s"; "x"] initial_state
           = Exits 0 s1
           /\ script_search_dirs s1 = ["x"]).
Proof.
  assert (A : existsb asks_help
     (getopt_long ["openocd"; "-f"; "a.cfg"; "-h"; "-v"; "-s"; "x"; "-c"; "init"])
   = true) by (vm_compute; reflexivity).
  assert (NA : existsb asks_help
     (getopt_long ["openocd"; "-f"; "a.cfg"; "--version"; "-s"; "x"]) = false)
    by (vm_compute; reflexivity).
  assert (V : existsb asks_version
     (getopt_long ["openocd"; "-f"; "a.cfg"; "--version"; "-s"; "x"]) = true)
    by (vm_compute; reflexivity).
  split.
  - split; [exact A|].
    destruct (proj1 help_exits_before_anything_else
                unix_build linux_installed 0 _ initial_state A)
      as (s1 & s' & L & P & _ & _ & D & Q).
    exists s1, s'. repeat split; assumption.
  - repeat (split; [assumption || reflexivity|]).
    destruct (proj2 help_exits_before_anything_else
                unix_build linux_installed 0 _ initial_state eq_refl NA V)
      as (s1 & L & P & _ & D).
    exists s1. split; assumption.
Defined.

(* ------------------------------------------------------------------------- *)
(** ** Deferred and immediate directives *)

(** The spellings of the file option: all four are reported as [f] with the
    path as argument. *)
Lemma getopt_long_file (p : string) :
  getopt_long ["openocd"; "-f"; p] = [mkRet (chr "f") (Some p) None]
  /\ getopt_long ["openocd"; "--file"; p] = [mkRet (chr "f") (Some p) None]
  /\ getopt_long ["openocd"; ("--file=" ++ p)%string]
     = [mkRet (chr "f") (Some p) None]
  /\ (p <> EmptyString ->
      getopt_long ["openocd"; ("-f" ++ p)%string]
      = [mkRet (chr "f") (Some p) None]).
Proof.
  repeat split; try reflexivity.
  intros N. destruct p; [contradiction|reflexivity].
Qed.

(** C7: one occurrence of [-f p], wherever it stands among the options, adds
    exactly one entry at the end of the configuration queue, the directive
    [script {p}]; no line is run, and nothing else in the state changes. *)
Theorem file_option_defers_one_script (ctx : command_context) (p : string)
    (before after : list ret_t) (s s1 : state) :
  parse_loop ctx before s = Returns tt s1 ->
  getopt_long ["openocd"; "-f"; p] = [mkRet (chr "f") (Some p) None]
  /\ exists s2,
       parse_loop ctx (before ++ [mkRet (chr "f") (Some p) None]) s
       = Returns tt s2
       /\ config_commands s2
          = config_commands s1 ++ [("script {" ++ p ++ "}")%string]
       /\ run_lines s2 = run_lines s1
       /\ script_search_dirs s2 = script_search_dirs s1
       /\ log s2 = log s1
       /\ help_flag s2 = help_flag s1
       /\ version_flag s2 = version_flag s1
       /\ parse_loop ctx (before ++ mkRet (chr "f") (Some p) None :: after) s
          = parse_loop ctx after s2.
Proof.
  intros B. split; [reflexivity|].
  exists (enqueue [("script {" ++ p ++ "}")%string] s1).
  rewrite !parse_loop_app. unfold bind. rewrite B.
  repeat split; reflexivity.
Qed.

Lemma file_option_defers_one_script_witness :
  parse_loop 7 [mkRet (chr "c") (Some "init") None] initial_state
  = Returns tt (mkState 0 0 [] ["init"] [] [])
  /\ parse_loop 7
       ([mkRet (chr "c") (Some "init") None]
        ++ [mkRet (chr "f") (Some "board.cfg") None]) initial_state
     = Returns tt (mkState 0 0 [] ["init"; "script {board.cfg}"] [] []).
Proof.
  split; [reflexivity|].
  destruct (file_option_defers_one_script 7 "board.cfg"
              [mkRet (chr "c") (Some "init") None] [] initial_state
              (mkState 0 0 [] ["init"] [] []) eq_refl)
    as (_ & s2 & L & Q & R & D & G & H & V & _).
  rewrite L. f_equal. destruct s2. cbn in *. now subst.
Defined.

(** The spellings of the debug option.  An optional argument is one that is
    attached: a level given as the next word is no argument of [-d]. *)
Lemma getopt_long_debug (n : string) :
  getopt_long ["openocd"; "-d"] = [mkRet (chr "d") None None]
  /\ getopt_long ["openocd"; "--debug"] = [mkRet (chr "d") None None]
  /\ getopt_long ["openocd"; ("--debug=" ++ n)%string]
     = [mkRet (chr "d") (Some n) None]
  /\ (n <> EmptyString ->
      getopt_long ["openocd"; ("-d" ++ n)%string]
      = [mkRet (chr "d") (Some n) None])
  /\ getopt_long ["openocd"; "-d"; "2"] = [mkRet (chr "d") None None].
Proof.
  repeat split; try reflexivity.
  intros N. destruct n; [contradiction|reflexivity].
Qed.

(** What getopt_long reports when the first option is the debug option, in
    each of its spellings, whatever follows: without an attached argument
    [optarg] is NULL and the next word is left for the next call. *)
Lemma getopt_long_debug_first (prog n : string) (rest : list string) :
  getopt_long (prog :: "-d" :: rest)
  = mkRet (chr "d") None None :: getopt_long (prog :: rest)
  /\ getopt_long (prog :: "--debug" :: rest)
     = mkRet (chr "d") None None :: getopt_long (prog :: rest)
  /\ getopt_long (prog :: ("--debug=" ++ n)%string :: rest)
     = mkRet (chr "d") (Some n) None :: getopt_long (prog :: rest)
  /\ (n <> EmptyString ->
      getopt_long (prog :: ("-d" ++ n)%string :: rest)
      = mkRet (chr "d") (Some n) None :: getopt_long (prog :: rest)).
Proof.
  repeat split; try reflexivity.
  intros N. destruct n; [contradiction|reflexivity].
Qed.

(** A word that is no option is passed over. *)
Lemma getopt_long_skips_word (prog word : string) (rest : list string) :
  classify word = NonOption ->
  getopt_long (prog :: word :: rest) = getopt_long (prog :: rest).
Proof.
  intros W. unfold getopt_long. cbn [tl returns]. now rewrite W.
Qed.

(** parse_cmdline_args on a command line whose first option getopt_long
    reports as [r]: the turn of the loop for [r], then the function on the
    remaining words. *)
Lemma parse_cmdline_args_first (b : build) (w : os) (ctx : command_context)
    (argv argv' : list string) (r : ret_t) (s s1 : state) :
  getopt_long argv = r :: getopt_long argv' ->
  parse_loop ctx [r] s = Returns tt s1 ->
  parse_cmdline_args b w ctx argv s = parse_cmdline_args b w ctx argv' s1.
Proof.
  intros G T. unfold parse_cmdline_args, bind. rewrite G.
  change (r :: getopt_long argv') with ([r] ++ getopt_long argv').
  rewrite parse_loop_app. unfold bind. now rewrite T.
Qed.

(** C8, as stated, fails where the level follows [-d] as a word of its own,
    as in the example [-d 2]: the argument of [-d] is declared optional
    ([d::] in the option string), so only an attached argument is one.
    getopt_long reports [d] with a NULL [optarg], the directive run is
    [debug_level 3], and [debug_level 2] is never run. *)
Lemma debug_level_as_next_word_counterexample :
  getopt_long ["openocd"; "-d"; "2"] = [mkRet (chr "d") None None]
  /\ parse_cmdline_args unix_build linux_installed 0
       ["openocd"; "-d"; "2"] initial_state
     = Returns ERROR_OK
         (mkState 0 0
            ["/home/user/.openocd";
             "/usr/local/usr/local/share/openocd/site";
             "/usr/local/usr/local/share/openocd/scripts"]
            [] [(0, "debug_level 3")]
            [(LOG_LVL_DEBUG, "bindir=/usr/local/bin");
             (LOG_LVL_DEBUG, "pkgdatadir=/usr/local/share/openocd");
             (LOG_LVL_DEBUG, "run_prefix=/usr/local")])
  /\ ~ In (0, "debug_level 2") [(0, "debug_level 3")].
Proof.
  split; [reflexivity|]. split; [reflexivity|].
  intros [H|[]]. discriminate H.
Qed.

(** C8, amended: an occurrence of [-d] or [--debug] without an attached
    argument runs the directive [debug_level 3] at once, also when a level
    follows as a word of its own, which is then passed over as a word that is
    no option; an occurrence with the level [n] attached, [-dn] or
    [--debug=n], runs [debug_level n] at once.  In every case the
    configuration queue is left as it was, and the function goes on with the
    remaining words.  The same holds for the turn of the loop at any
    position among the options. *)
Theorem debug_option_runs_attached_level (b : build) (w : os)
    (ctx : command_context) (prog n word : string) (rest : list string)
    (s : state) :
  n <> EmptyString ->
  classify word = NonOption ->
  parse_cmdline_args b w ctx (prog :: "-d" :: rest) s
  = parse_cmdline_args b w ctx (prog :: rest)
      (run_now ctx ["debug_level 3"] s)
  /\ parse_cmdline_args b w ctx (prog :: "--debug" :: rest) s
     = parse_cmdline_args b w ctx (prog :: rest)
         (run_now ctx ["debug_level 3"] s)
  /\ parse_cmdline_args b w ctx (prog :: "-d" :: word :: rest) s
     = parse_cmdline_args b w ctx (prog :: rest)
         (run_now ctx ["debug_level 3"] s)
  /\ parse_cmdline_args b w ctx (prog :: ("-d" ++ n)%string :: rest) s
     = parse_cmdline_args b w ctx (prog :: rest)
         (run_now ctx [("debug_level " ++ n)%string] s)
  /\ parse_cmdline_args b w ctx (prog :: ("--debug=" ++ n)%string :: rest) s
     = parse_cmdline_args b w ctx (prog :: rest)
         (run_now ctx [("debug_level " ++ n)%string] s)
  /\ (forall line,
        config_commands (run_now ctx [line] s) = config_commands s
        /\ run_lines (run_now ctx [line] s) = run_lines s ++ [(ctx, line)])
  /\ (forall before after s0 s1,
        parse_loop ctx before s0 = Returns tt s1 ->
        parse_loop ctx (before ++ mkRet (chr "d") None None :: after) s0
        = parse_loop ctx after (run_now ctx ["debug_level 3"] s1)
        /\ parse_loop ctx (before ++ mkRet (chr "d") (Some n) None :: after) s0
           = parse_loop ctx after
               (run_now ctx [("debug_level " ++ n)%string] s1)).
Proof.
  intros N W.
  destruct (getopt_long_debug_first prog n rest) as (G1 & G2 & G3 & G4).
  specialize (G4 N).
  split; [now apply (parse_cmdline_args_first _ _ _ _ _ _ _ _ G1)|].
  split; [now apply (parse_cmdline_args_first _ _ _ _ _ _ _ _ G2)|].
  split.
  { destruct (getopt_long_debug_first prog n (word :: rest)) as (G & _).
    rewrite (getopt_long_skips_word prog word rest W) in G.
    now apply (parse_cmdline_args_first _ _ _ _ _ _ _ _ G). }
  split; [now apply (parse_cmdline_args_first _ _ _ _ _ _ _ _ G4)|].
  split; [now apply (parse_cmdline_args_first _ _ _ _ _ _ _ _ G3)|].
  split; [intros line; split; reflexivity|].
  intros before after s0 s1 B.
  split; rewrite parse_loop_app; unfold bind; rewrite B; reflexivity.
Qed.

Lemma debug_option_runs_attached_level_witness :
  "2" <> EmptyString
  /\ classify "2" = NonOption
  /\ parse_cmdline_args unix_build linux_installed 7
       ["openocd"; "-d"; "2"; "-f"; "a.cfg"] initial_state
     = parse_cmdline_args unix_build linux_installed 7
         ["openocd"; "-f"; "a.cfg"]
         (run_now 7 ["debug_level 3"] initial_state)
  /\ parse_cmdline_args unix_build linux_installed 7
       ["openocd"; "-d2"; "-f"; "a.cfg"] initial_state
     = parse_cmdline_args unix_build linux_installed 7
         ["openocd"; "-f"; "a.cfg"]
         (run_now 7 ["debug_level 2"] initial_state).
Proof.
  assert (N : "2" <> EmptyString) by discriminate.
  assert (W : classify "2" = NonOption) by reflexivity.
  split; [exact N|]. split; [exact W|].
  destruct (debug_option_runs_attached_level unix_build linux_installed 7
              "openocd" "2" "2" ["-f"; "a.cfg"] initial_state N W)
    as (_ & _ & S & A & _).
  split; [exact S | exact A].
Defined.

(* ------------------------------------------------------------------------- *)
(** ** What add_default_dirs needs from find_exe_path *)

Lemma add_default_dirs_outcome (b : build) (w : os) (s : state) :
  (exists s', add_default_dirs b w s = Returns tt s')
  \/ add_default_dirs b w s = Undefined.
Proof.
  rewrite add_default_dirs_eq. destruct (run_prefix b w); eauto.
Qed.

Lemma stripped_exepath_some (b : build) (w : os) (s : state) :
  (exists e, stripped_exepath b w = Some e)
  <-> (exists d s1,
         find_exe_path b w s = Returns (Some d) s1 /\ occurs "/" d = true).
Proof.
  rewrite find_exe_path_eq. unfold stripped_exepath, exe_dir.
  destruct (lookup_exe_path b w) as [p|].
  - destruct (strrchr p "/") as [i|]; cbn [option_map].
    + destruct (strrchr (store_nul p i) "/") as [j|] eqn:E; cbn [option_map].
      * split; [intros _|eauto].
        exists (store_nul p i), s. split; [reflexivity|].
        apply strrchr_occurs. eauto.
      * split; [intros [e H]; discriminate|].
        intros (d & s1 & [= <- <-] & O).
        apply strrchr_occurs in O. destruct O as [j O]. congruence.
    + split; [intros [e H]; discriminate|].
      intros (d & s1 & H & _). discriminate.
  - destruct (if HAVE_REALPATH b then realpath w (BINDIR b)
              else strdup (BINDIR b)) as [d|].
    + destruct (strrchr d "/") as [j|] eqn:E; cbn [option_map].
      * split; [intros _|eauto].
        exists d. eexists. split; [reflexivity|].
        apply strrchr_occurs. eauto.
      * split; [intros [e H]; discriminate|].
        intros (d' & s1 & [= <- <-] & O).
        apply strrchr_occurs in O. destruct O as [j O]. congruence.
    + split; [intros [e H]; discriminate|].
      intros (d & s1 & H & _). discriminate.
Qed.

(** C9: add_default_dirs applies [strrchr(exepath, '/')] to what
    find_exe_path returned and stores through the result without a test.  It
    completes exactly when find_exe_path returned a string, not NULL, in
    which a slash occurs; otherwise a NULL pointer is dereferenced.  Both
    failures are reached through the BINDIR fallback of find_exe_path: with
    realpath failing on BINDIR the result is NULL, and on a build without
    realpath a BINDIR without a slash is returned as it is. *)
Theorem add_default_dirs_needs_a_slash :
  (forall (b : build) (w : os) (s : state),
      ((exists s', add_default_dirs b w s = Returns tt s')
       <-> (exists d s1,
              find_exe_path b w s = Returns (Some d) s1
              /\ occurs "/" d = true))
      /\ ((exists s', add_default_dirs b w s = Returns tt s')
          \/ add_default_dirs b w s = Undefined))
  /\ (lookup_exe_path unix_build nothing_resolves = None
      /\ find_exe_path unix_build nothing_resolves initial_state
         = Returns None (logged (locator_log unix_build nothing_resolves)
                                initial_state)
      /\ add_default_dirs unix_build nothing_resolves initial_state
         = Undefined)
  /\ (lookup_exe_path cygwin_win32_build nothing_resolves = None
      /\ find_exe_path cygwin_win32_build nothing_resolves initial_state
         = Returns (Some (BINDIR cygwin_win32_build))
                   (logged (locator_log cygwin_win32_build nothing_resolves)
                           initial_state)
      /\ occurs "/" (BINDIR cygwin_win32_build) = false
      /\ add_default_dirs cygwin_win32_build nothing_resolves initial_state
         = Undefined).
Proof.
  split; [|split; repeat split; reflexivity].
  intros b w s. split; [|apply add_default_dirs_outcome].
  rewrite <- stripped_exepath_some.
  rewrite add_default_dirs_eq. unfold run_prefix.
  destruct (stripped_exepath b w) as [e|]; cbn [option_map].
  - split; eauto.
  - split; intros [x H]; discriminate.
Qed.

(* ------------------------------------------------------------------------- *)
(** ** The suffix and the installation directories, build by build *)

(** X14: the suffix add_default_dirs looks for at the end of the path held
    in its buffer [exepath] is the fixed string [bin] where _WIN32 is defined
    and NUVOTON_CUSTOMIZED is set, and BINDIR on any other build; when the
    path ends with the suffix it is removed, otherwise the path is kept, and
    the result is the run prefix the function logs.  The two installation
    directories are the run prefix followed by /site and by /scripts on the
    first kind of build, with no PKGDATADIR in between, and the run prefix
    followed by PKGDATADIR and then /site and /scripts on the others.  The
    path in the buffer at the call of find_suffix is what find_exe_path
    returned, cut at its last slash. *)
Theorem install_dirs_by_build (b : build) (w : os) (s s' : state) :
  add_default_dirs b w s = Returns tt s' ->
  exists exepath rp envdirs,
    stripped_exepath b w = Some exepath
    /\ run_prefix b w = Some rp
    /\ In (LOG_LVL_DEBUG, ("run_prefix=" ++ rp)%string) (log s')
    /\ (DEF_WIN32 b = true -> NUVOTON_CUSTOMIZED b = true ->
        (ends_with exepath "bin" -> exepath = (rp ++ "bin")%string)
        /\ (~ ends_with exepath "bin" -> rp = exepath)
        /\ script_search_dirs s'
           = script_search_dirs s ++ envdirs
             ++ [(rp ++ "/site")%string; (rp ++ "/scripts")%string])
    /\ (DEF_WIN32 b = false \/ NUVOTON_CUSTOMIZED b = false ->
        (ends_with exepath (BINDIR b) -> exepath = (rp ++ BINDIR b)%string)
        /\ (~ ends_with exepath (BINDIR b) -> rp = exepath)
        /\ script_search_dirs s'
           = script_search_dirs s ++ envdirs
             ++ [(rp ++ PKGDATADIR b ++ "/site")%string;
                 (rp ++ PKGDATADIR b ++ "/scripts")%string]).
Proof.
  rewrite add_default_dirs_eq. unfold run_prefix.
  destruct (stripped_exepath b w) as [e|]; cbn [option_map]; [|discriminate].
  intros [= <-].
  exists e, (cut_at e (find_suffix e (install_suffix b))).
  exists (opt_list (option_map (fun home => home ++ "/.openocd")%string
                               (getenv w "HOME"))
          ++ opt_list (getenv w "OPENOCD_SCRIPTS")
          ++ (if DEF_WIN32 b then
                opt_list (option_map
                            (fun appdata => appdata ++ "/OpenOCD")%string
                            (getenv w "APPDATA"))
              else [])).
  split; [reflexivity|]. split; [reflexivity|]. split.
  { cbn. rewrite !in_app_iff. right. right. cbn. auto. }
  unfold install_suffix, default_dirs, nuvoton_win32. split.
  - intros W N. rewrite W, N. cbn [andb].
    destruct (cut_at_find_suffix e "bin") as [Y X].
    repeat split; auto. cbn. now rewrite <- !app_assoc.
  - intros D.
    assert (DEF_WIN32 b && NUVOTON_CUSTOMIZED b = false) as ->
      by (destruct D as [-> | ->]; [reflexivity|apply andb_false_r]).
    destruct (cut_at_find_suffix e (BINDIR b)) as [Y X].
    repeat split; auto. cbn. now rewrite <- !app_assoc.
Qed.

Lemma install_dirs_by_build_witness :
  (add_default_dirs nuvoton_build nuvoton_windows initial_state
   = Returns tt
       (mkState 0 0
          ["C:/Users/user/AppData/Roaming/OpenOCD";
           "C:/Nuvoton/OpenOCD/site"; "C:/Nuvoton/OpenOCD/scripts"]
          [] []
          [(LOG_LVL_DEBUG, "bindir=/mingw/bin");
           (LOG_LVL_DEBUG, "pkgdatadir=/mingw/share/openocd");
           (LOG_LVL_DEBUG, "run_prefix=C:/Nuvoton/OpenOCD")])
   /\ exists rp envdirs,
        run_prefix nuvoton_build nuvoton_windows = Some rp
        /\ ["C:/Users/user/AppData/Roaming/OpenOCD";
            "C:/Nuvoton/OpenOCD/site"; "C:/Nuvoton/OpenOCD/scripts"]
           = [] ++ envdirs
             ++ [(rp ++ "/site")%string; (rp ++ "/scripts")%string])
  /\ (add_default_dirs unix_build linux_installed initial_state
      = Returns tt
          (mkState 0 0
             ["/home/user/.openocd";
              "/usr/local/usr/local/share/openocd/site";
              "/usr/local/usr/local/share/openocd/scripts"]
             [] []
             [(LOG_LVL_DEBUG, "bindir=/usr/local/bin");
              (LOG_LVL_DEBUG, "pkgdatadir=/usr/local/share/openocd");
              (LOG_LVL_DEBUG, "run_prefix=/usr/local")])
      /\ exists rp envdirs,
           run_prefix unix_build linux_installed = Some rp
           /\ ["/home/user/.openocd";
               "/usr/local/usr/local/share/openocd/site";
               "/usr/local/usr/local/share/openocd/scripts"]
              = [] ++ envdirs
                ++ [(rp ++ PKGDATADIR unix_build ++ "/site")%string;
                    (rp ++ PKGDATADIR unix_build ++ "/scripts")%string]).
Proof.
  split.
  - split; [reflexivity|].
    destruct (install_dirs_by_build nuvoton_build nuvoton_windows
                initial_state _ eq_refl)
      as (e & rp & envdirs & _ & P & _ & N & _).
    exists rp, envdirs. split; [exact P|].
    exact (proj2 (proj2 (N eq_refl eq_refl))).
  - split; [reflexivity|].
    destruct (install_dirs_by_build unix_build linux_installed
                initial_state _ eq_refl)
      as (e & rp & envdirs & _ & P & _ & _ & U).
    exists rp, envdirs. split; [exact P|].
    exact (proj2 (proj2 (U (or_introl eq_refl)))).
Defined.

(** C10, evaluated where it fails.  The suffix is not looked for at the end
    of the directory of the executable: add_default_dirs first cuts that
    directory at its last slash (the second cut under the comment that names
    the file name).  The Unix program in /usr/local/bin, a directory that
    ends with BINDIR, gets no suffix removed and the run prefix /usr/local,
    where removing BINDIR from its directory leaves the empty prefix and the
    directories PKGDATADIR/site and PKGDATADIR/scripts.  The Nuvoton program
    in C:/Nuvoton/OpenOCD/bin, a directory that ends with [bin], gets no
    suffix removed either: find_suffix is applied to C:/Nuvoton/OpenOCD and
    finds nothing. *)
Theorem suffix_is_sought_in_the_parent :
  (exe_dir unix_build linux_installed = Some "/usr/local/bin"
   /\ ends_with "/usr/local/bin" (BINDIR unix_build)
   /\ spec_run_prefix unix_build "/usr/local/bin/openocd" = ""
   /\ stripped_exepath unix_build linux_installed = Some "/usr/local"
   /\ find_suffix "/usr/local" (BINDIR unix_build) = None
   /\ add_default_dirs unix_build linux_installed initial_state
      = Returns tt
          (mkState 0 0
             ["/home/user/.openocd";
              "/usr/local/usr/local/share/openocd/site";
              "/usr/local/usr/local/share/openocd/scripts"]
             [] []
             [(LOG_LVL_DEBUG, "bindir=/usr/local/bin");
              (LOG_LVL_DEBUG, "pkgdatadir=/usr/local/share/openocd");
              (LOG_LVL_DEBUG, "run_prefix=/usr/local")]))
  /\ (exe_dir nuvoton_build nuvoton_windows = Some "C:/Nuvoton/OpenOCD/bin"
      /\ ends_with "C:/Nuvoton/OpenOCD/bin" "bin"
      /\ spec_run_prefix nuvoton_build "C:/Nuvoton/OpenOCD/bin/openocd.exe"
         = "C:/Nuvoton/OpenOCD/"
      /\ stripped_exepath nuvoton_build nuvoton_windows
         = Some "C:/Nuvoton/OpenOCD"
      /\ find_suffix "C:/Nuvoton/OpenOCD" "bin" = None
      /\ add_default_dirs nuvoton_build nuvoton_windows initial_state
         = Returns tt
             (mkState 0 0
                ["C:/Users/user/AppData/Roaming/OpenOCD";
                 "C:/Nuvoton/OpenOCD/site"; "C:/Nuvoton/OpenOCD/scripts"]
                [] []
                [(LOG_LVL_DEBUG, "bindir=/mingw/bin");
                 (LOG_LVL_DEBUG, "pkgdatadir=/mingw/share/openocd");
                 (LOG_LVL_DEBUG, "run_prefix=C:/Nuvoton/OpenOCD")])).
Proof.
  split.
  - split; [reflexivity|]. split; [now exists EmptyString|].
    repeat split; reflexivity.
  - split; [reflexivity|]. split; [now exists "C:/Nuvoton/OpenOCD/"|].
    repeat split; reflexivity.
Qed.

(** On the Nuvoton build the suffix [bin] is cut where the path left in
    [exepath] ends with it: started from C:/tools/bin/debug, the path is
    C:/tools/bin and the run prefix C:/tools/. *)
Example nuvoton_cuts_bin :
  stripped_exepath nuvoton_build nuvoton_nested = Some "C:/tools/bin"
  /\ add_default_dirs nuvoton_build nuvoton_nested initial_state
     = Returns tt
         (mkState 0 0 ["C:/tools//site"; "C:/tools//scripts"] [] []
            [(LOG_LVL_DEBUG, "bindir=/mingw/bin");
             (LOG_LVL_DEBUG, "pkgdatadir=/mingw/share/openocd");
             (LOG_LVL_DEBUG, "run_prefix=C:/tools/")]).
Proof. split; reflexivity. Qed.

(* ------------------------------------------------------------------------- *)
(** ** find_suffix and find_exe_path, further *)

(** X1: find_suffix reports a position exactly when the text ends with the
    suffix, and the position is where the suffix starts; an empty suffix is
    found at the end of the text, a suffix longer than the text never. *)
Theorem find_suffix_iff (text suffix : string) (j : nat) :
  find_suffix text suffix = Some j
  <-> ends_with text suffix
      /\ j = String.length text - String.length suffix.
Proof.
  split.
  - intros F. destruct (find_suffix_some _ _ _ F) as [E J].
    split; [exists (store_nul text j); exact E | exact J].
  - intros [E ->]. now apply find_suffix_ends_with.
Qed.

Lemma strrchr_split (s : string) (c : ascii) (i : nat) :
  strrchr s c = Some i ->
  exists f, s = (store_nul s i ++ String c f)%string /\ occurs c f = false.
Proof.
  unfold store_nul. revert i. induction s as [|a s IH]; intros i; simpl.
  - discriminate.
  - destruct (strrchr s c) as [k|] eqn:E.
    + intros [= <-]. destruct (IH k eq_refl) as (f & S & O).
      exists f. split; [|exact O]. cbn. now rewrite <- S.
    + destruct (Ascii.eqb_spec a c) as [->|N]; [|discriminate].
      intros [= <-]. exists s. split; [reflexivity|].
      now apply strrchr_none.
Qed.

Lemma occurs_append (c : ascii) (a b : string) :
  occurs c (a ++ b) = occurs c a || occurs c b.
Proof.
  induction a as [|x a IH]; simpl; [reflexivity|].
  now rewrite IH, orb_assoc.
Qed.

Lemma occurs_slashes (s : string) : occurs "\" (slashes s) = false.
Proof.
  induction s as [|a s IH]; simpl; [reflexivity|].
  rewrite IH, orb_false_r.
  destruct (Ascii.eqb_spec a "\") as [->|N]; [reflexivity|].
  now apply Ascii.eqb_neq.
Qed.

Lemma found_path_is_cut (b : build) (w : os) (s s' : state)
    (path : string) (r : option string) :
  lookup_exe_path b w = Some path ->
  find_exe_path b w s = Returns r s' ->
  s' = s
  /\ exists dir file,
       r = Some dir
       /\ path = (dir ++ String "/" file)%string
       /\ occurs "/" file = false.
Proof.
  intros L R. rewrite find_exe_path_eq, L in R.
  destruct (strrchr path "/") as [i|] eqn:E; [|discriminate].
  injection R as <- <-. split; [reflexivity|].
  destruct (strrchr_split _ _ _ E) as (f & S & O).
  exists (store_nul path i), f. auto.
Qed.

(** X2: when a platform lookup gave the path of the executable and
    find_exe_path returns, it returns that path up to its last slash: what
    is cut off is the slash and a file name without a slash.  Nothing is
    logged and the state is unchanged. *)
Theorem find_exe_path_strips_file_name (b : build) (w : os) (s s' : state)
    (path : string) (r : option string) :
  lookup_exe_path b w = Some path ->
  find_exe_path b w s = Returns r s' ->
  s' = s
  /\ exists dir file,
       r = Some dir
       /\ path = (dir ++ String "/" file)%string
       /\ occurs "/" file = false.
Proof. exact (found_path_is_cut b w s s' path r). Qed.

Lemma find_exe_path_strips_file_name_witness :
  lookup_exe_path unix_build linux_installed = Some "/usr/local/bin/openocd"
  /\ find_exe_path unix_build linux_installed initial_state
     = Returns (Some "/usr/local/bin") initial_state
  /\ exists dir file,
       Some "/usr/local/bin" = Some dir
       /\ "/usr/local/bin/openocd" = (dir ++ String "/" file)%string
       /\ occurs "/" file = false.
Proof.
  split; [reflexivity|]. split; [reflexivity|].
  exact (proj2 (find_exe_path_strips_file_name unix_build linux_installed
                  initial_state initial_state "/usr/local/bin/openocd"
                  (Some "/usr/local/bin") eq_refl eq_refl)).
Defined.

(** X3: on a Windows build that is not Cygwin, the directory find_exe_path
    returns is taken from the module file name with every backslash turned
    into a slash: it holds no backslash. *)
Theorem find_exe_path_windows_separators (b : build) (w : os)
    (s s' : state) (r : option string) :
  IS_WIN32 b = true -> IS_CYGWIN b = false ->
  find_exe_path b w s = Returns r s' ->
  exists dir file,
    r = Some dir
    /\ slashes (GetModuleFileName w) = (dir ++ String "/" file)%string
    /\ occurs "\" dir = false.
Proof.
  intros W C R.
  assert (L : lookup_exe_path b w = Some (slashes (GetModuleFileName w)))
    by (unfold lookup_exe_path; now rewrite W, C).
  destruct (found_path_is_cut b w s s' _ r L R)
    as (_ & dir & file & -> & P & _).
  exists dir, file. split; [reflexivity|]. split; [exact P|].
  pose proof (occurs_slashes (GetModuleFileName w)) as O.
  rewrite P, occurs_append in O. now apply orb_false_iff in O.
Qed.

Lemma find_exe_path_windows_separators_witness :
  IS_WIN32 nuvoton_build = true /\ IS_CYGWIN nuvoton_build = false
  /\ find_exe_path nuvoton_build nuvoton_windows initial_state
     = Returns (Some "C:/Nuvoton/OpenOCD/bin") initial_state
  /\ exists dir file,
       Some "C:/Nuvoton/OpenOCD/bin" = Some dir
       /\ slashes (GetModuleFileName nuvoton_windows)
          = (dir ++ String "/" file)%string
       /\ occurs "\" dir = false.
Proof.
  repeat (split; [reflexivity|]).
  exact (find_exe_path_windows_separators nuvoton_build nuvoton_windows
           initial_state initial_state (Some "C:/Nuvoton/OpenOCD/bin")
           eq_refl eq_refl eq_refl).
Defined.

(* ------------------------------------------------------------------------- *)
(** ** add_default_dirs, further *)

Lemma default_dirs_length (b : build) (w : os) (rp : string) :
  2 <= List.length (default_dirs b w rp) <= 5
  /\ (DEF_WIN32 b = false -> List.length (default_dirs b w rp) <= 4).
Proof.
  unfold default_dirs. rewrite !length_app.
  destruct (getenv w "HOME"), (getenv w "OPENOCD_SCRIPTS"),
    (getenv w "APPDATA"), (DEF_WIN32 b), (nuvoton_win32 b); cbn;
    split; try lia; intros; try discriminate; lia.
Qed.

(** X4: add_default_dirs never calls exit.  When it completes, the
    directories already registered keep their places and between two and
    five directories follow them (at most four where _WIN32 is not defined),
    the last two being the site and the scripts directory of one and the
    same run prefix; the flags, the configuration queue and the lines run
    are as before. *)
Theorem add_default_dirs_only_appends (b : build) (w : os) (s s' : state) :
  add_default_dirs b w s = Returns tt s' ->
  (exists added rp front,
     script_search_dirs s' = script_search_dirs s ++ added
     /\ 2 <= List.length added <= 5
     /\ (DEF_WIN32 b = false -> List.length added <= 4)
     /\ added
        = front
          ++ (if nuvoton_win32 b then
                [(rp ++ "/site")%string; (rp ++ "/scripts")%string]
              else
                [(rp ++ PKGDATADIR b ++ "/site")%string;
                 (rp ++ PKGDATADIR b ++ "/scripts")%string]))
  /\ config_commands s' = config_commands s
  /\ run_lines s' = run_lines s
  /\ help_flag s' = help_flag s
  /\ version_flag s' = version_flag s
  /\ (forall s0 status s1, add_default_dirs b w s0 <> Exits status s1).
Proof.
  rewrite add_default_dirs_eq.
  destruct (run_prefix b w) as [rp|] eqn:P; [|discriminate].
  intros [= <-]. split; [|repeat split].
  - exists (default_dirs b w rp), rp.
    exists (opt_list (option_map (fun home => home ++ "/.openocd")%string
                                 (getenv w "HOME"))
            ++ opt_list (getenv w "OPENOCD_SCRIPTS")
            ++ (if DEF_WIN32 b then
                  opt_list (option_map
                              (fun appdata => appdata ++ "/OpenOCD")%string
                              (getenv w "APPDATA"))
                else [])).
    split; [reflexivity|].
    destruct (default_dirs_length b w rp) as [B F].
    split; [exact B|]. split; [exact F|].
    unfold default_dirs. now rewrite <- !app_assoc.
  - intros s0 status s1. rewrite add_default_dirs_eq, P. discriminate.
Qed.

Lemma add_default_dirs_only_appends_witness :
  add_default_dirs nuvoton_build nuvoton_windows
    (mkState 0 0 ["tcl"] ["init"] [] [])
  = Returns tt
      (mkState 0 0
         ["tcl"; "C:/Users/user/AppData/Roaming/OpenOCD";
          "C:/Nuvoton/OpenOCD/site"; "C:/Nuvoton/OpenOCD/scripts"]
         ["init"] []
         [(LOG_LVL_DEBUG, "bindir=/mingw/bin");
          (LOG_LVL_DEBUG, "pkgdatadir=/mingw/share/openocd");
          (LOG_LVL_DEBUG, "run_prefix=C:/Nuvoton/OpenOCD")])
  /\ exists added,
       ["tcl"; "C:/Users/user/AppData/Roaming/OpenOCD";
        "C:/Nuvoton/OpenOCD/site"; "C:/Nuvoton/OpenOCD/scripts"]
       = ["tcl"] ++ added
       /\ 2 <= List.length added <= 5.
Proof.
  assert (R : add_default_dirs nuvoton_build nuvoton_windows
    (mkState 0 0 ["tcl"] ["init"] [] [])
  = Returns tt
      (mkState 0 0
         ["tcl"; "C:/Users/user/AppData/Roaming/OpenOCD";
          "C:/Nuvoton/OpenOCD/site"; "C:/Nuvoton/OpenOCD/scripts"]
         ["init"] []
         [(LOG_LVL_DEBUG, "bindir=/mingw/bin");
          (LOG_LVL_DEBUG, "pkgdatadir=/mingw/share/openocd");
          (LOG_LVL_DEBUG, "run_prefix=C:/Nuvoton/OpenOCD")]))
    by (vm_compute; reflexivity).
  split; [exact R|].
  destruct (add_default_dirs_only_appends nuvoton_build nuvoton_windows
              _ _ R)
    as ((added & rp & front & D & B & _) & _).
  exists added. split; [exact D | exact B].
Defined.

(** X5: add_default_dirs does not look at what is registered.  Run a second
    time it completes again and appends the same directories once more,
    after those of the first run: nothing is removed as a duplicate. *)
Theorem add_default_dirs_twice (b : build) (w : os) (s s1 : state) :
  add_default_dirs b w s = Returns tt s1 ->
  exists added s2,
    script_search_dirs s1 = script_search_dirs s ++ added
    /\ add_default_dirs b w s1 = Returns tt s2
    /\ script_search_dirs s2 = script_search_dirs s ++ added ++ added.
Proof.
  rewrite !add_default_dirs_eq.
  destruct (run_prefix b w) as [rp|]; [|discriminate].
  intros [= <-]. exists (default_dirs b w rp). eexists.
  split; [reflexivity|]. split; [reflexivity|].
  cbn. now rewrite <- app_assoc.
Qed.

Lemma add_default_dirs_twice_witness :
  add_default_dirs unix_build linux_installed initial_state
  = Returns tt
      (mkState 0 0
         ["/home/user/.openocd";
          "/usr/local/usr/local/share/openocd/site";
          "/usr/local/usr/local/share/openocd/scripts"]
         [] []
         [(LOG_LVL_DEBUG, "bindir=/usr/local/bin");
          (LOG_LVL_DEBUG, "pkgdatadir=/usr/local/share/openocd");
          (LOG_LVL_DEBUG, "run_prefix=/usr/local")])
  /\ exists added s2,
       ["/home/user/.openocd";
        "/usr/local/usr/local/share/openocd/site";
        "/usr/local/usr/local/share/openocd/scripts"] = [] ++ added
       /\ script_search_dirs s2 = [] ++ added ++ added.
Proof.
  assert (R : add_default_dirs unix_build linux_installed initial_state
  = Returns tt
      (mkState 0 0
         ["/home/user/.openocd";
          "/usr/local/usr/local/share/openocd/site";
          "/usr/local/usr/local/share/openocd/scripts"]
         [] []
         [(LOG_LVL_DEBUG, "bindir=/usr/local/bin");
          (LOG_LVL_DEBUG, "pkgdatadir=/usr/local/share/openocd");
          (LOG_LVL_DEBUG, "run_prefix=/usr/local")]))
    by (vm_compute; reflexivity).
  split; [exact R|].
  destruct (add_default_dirs_twice unix_build linux_installed _ _ R)
    as (added & s2 & D & _ & D2).
  exists added, s2. split; [exact D | exact D2].
Defined.

(* ------------------------------------------------------------------------- *)
(** ** The loop, further *)

(** X6: for every argument vector the loop of parse_cmdline_args runs to its
    end: no turn calls exit and none reads a NULL [optarg] as a string.  It
    leaves the directories of the [-s] options, the deferred directives of
    [-f] and [-c], the directives run for [-d], [-l] and [-p] and the
    warnings of [-p] appended to their lists, each in the order of the
    command line. *)
Theorem parse_loop_completes (ctx : command_context) (argv : list string)
    (s : state) :
  exists s1,
    parse_loop ctx (getopt_long argv) s = Returns tt s1
    /\ script_search_dirs s1
       = script_search_dirs s ++ flat_map search_arg (getopt_long argv)
    /\ config_commands s1
       = config_commands s ++ flat_map deferred (getopt_long argv)
    /\ run_lines s1
       = run_lines s ++ map (pair ctx) (flat_map immediate (getopt_long argv))
    /\ log s1 = log s ++ flat_map warned (getopt_long argv).
Proof.
  exists (after_calls ctx (getopt_long argv) s).
  split; [apply parse_loop_eq, getopt_long_well_formed|].
  repeat split.
Qed.

Lemma turn_outcome (ctx : command_context) (r : ret_t) (s : state) :
  if lacks_optarg r
  then (store_flag (g_store r) ;; option_switch ctx (g_c r) (g_optarg r)) s
       = Undefined
  else exists s1,
         (store_flag (g_store r) ;; option_switch ctx (g_c r) (g_optarg r)) s
         = Returns tt s1.
Proof.
  destruct r as [c optarg store]. unfold lacks_optarg. cbn.
  unfold option_switch, bind.
  destruct store as [[[] v]|]; cbn;
    case_c c; destruct optarg; cbn; try reflexivity;
    eexists; reflexivity.
Qed.

(** X7: on results of any kind, the loop never calls exit, and it is
    undefined exactly when some result is [f] or [s] with a NULL [optarg]:
    these two cases of the switch use [optarg] without a test, the cases [l]
    and [c] test it, the others do not read it. *)
Theorem parse_loop_undefined_iff (ctx : command_context)
    (calls : list ret_t) (s : state) :
  (parse_loop ctx calls s = Undefined <-> existsb lacks_optarg calls = true)
  /\ (forall status s', parse_loop ctx calls s <> Exits status s').
Proof.
  revert s. induction calls as [|r calls IH]; intros s.
  - cbn. split; [split; discriminate | discriminate].
  - pose proof (turn_outcome ctx r s) as T.
    cbn [parse_loop existsb]. unfold bind in T |- *.
    destruct (lacks_optarg r).
    + destruct (store_flag (g_store r) s) as [[] s0| |].
      * rewrite T. split; [split; reflexivity | discriminate].
      * discriminate.
      * split; [split; reflexivity | discriminate].
    + destruct T as [s1 T].
      destruct (store_flag (g_store r) s) as [[] s0| |]; try discriminate.
      rewrite T. cbn [orb]. apply IH.
Qed.

Lemma turn_in_context (ctx : command_context) (before after : list ret_t)
    (r : ret_t) (s s1 s2 : state) :
  parse_loop ctx before s = Returns tt s1 ->
  parse_loop ctx [r] s1 = Returns tt s2 ->
  parse_loop ctx (before ++ [r]) s = Returns tt s2
  /\ parse_loop ctx (before ++ r :: after) s = parse_loop ctx after s2.
Proof.
  intros B T. split.
  - rewrite parse_loop_app. unfold bind. now rewrite B.
  - rewrite parse_loop_app. unfold bind. rewrite B.
    change (r :: after) with ([r] ++ after).
    rewrite parse_loop_app. unfold bind. now rewrite T.
Qed.

(** X8: an occurrence of [-c text], wherever it stands among the options,
    appends [text] as it is to the configuration queue, as one entry; no
    line is run and the search path, the log and the flags are unchanged.
    The switch tests [optarg]: a [c] without argument changes nothing. *)
Theorem command_option_defers_verbatim (ctx : command_context)
    (text : string) (before after : list ret_t) (s s1 : state) :
  parse_loop ctx before s = Returns tt s1 ->
  getopt_long ["openocd"; "-c"; text] = [mkRet (chr "c") (Some text) None]
  /\ parse_loop ctx (before ++ [mkRet (chr "c") (Some text) None]) s
     = Returns tt (enqueue [text] s1)
  /\ parse_loop ctx (before ++ mkRet (chr "c") (Some text) None :: after) s
     = parse_loop ctx after (enqueue [text] s1)
  /\ run_lines (enqueue [text] s1) = run_lines s1
  /\ parse_loop ctx (before ++ mkRet (chr "c") None None :: after) s
     = parse_loop ctx after s1.
Proof.
  intros B. split; [reflexivity|].
  destruct (turn_in_context ctx before after
              (mkRet (chr "c") (Some text) None) s s1 _ B eq_refl) as [T1 T2].
  destruct (turn_in_context ctx before after
              (mkRet (chr "c") None None) s s1 _ B eq_refl) as [_ T3].
  repeat split; assumption.
Qed.

Lemma command_option_defers_verbatim_witness :
  parse_loop 7 [mkRet (chr "f") (Some "a.cfg") None] initial_state
  = Returns tt (mkState 0 0 [] ["script {a.cfg}"] [] [])
  /\ parse_loop 7 ([mkRet (chr "f") (Some "a.cfg") None]
                   ++ [mkRet (chr "c") (Some "reset_config none") None])
       initial_state
     = Returns tt
         (enqueue ["reset_config none"]
                  (mkState 0 0 [] ["script {a.cfg}"] [] [])).
Proof.
  split; [reflexivity|].
  exact (proj1 (proj2 (command_option_defers_verbatim 7 "reset_config none"
                         [mkRet (chr "f") (Some "a.cfg") None] []
                         initial_state
                         (mkState 0 0 [] ["script {a.cfg}"] [] []) eq_refl))).
Defined.

(** X9: an occurrence of [-l path], wherever it stands, runs the directive
    [log_output path] at once and leaves the configuration queue, the search
    path and the log as they are; an [l] without argument runs nothing. *)
Theorem log_output_option_runs_at_once (ctx : command_context)
    (path : string) (before after : list ret_t) (s s1 : state) :
  parse_loop ctx before s = Returns tt s1 ->
  getopt_long ["openocd"; "-l"; path] = [mkRet (chr "l") (Some path) None]
  /\ parse_loop ctx (before ++ [mkRet (chr "l") (Some path) None]) s
     = Returns tt (run_now ctx [("log_output " ++ path)%string] s1)
  /\ parse_loop ctx (before ++ mkRet (chr "l") (Some path) None :: after) s
     = parse_loop ctx after (run_now ctx [("log_output " ++ path)%string] s1)
  /\ config_commands (run_now ctx [("log_output " ++ path)%string] s1)
     = config_commands s1
  /\ parse_loop ctx (before ++ mkRet (chr "l") None None :: after) s
     = parse_loop ctx after s1.
Proof.
  intros B. split; [reflexivity|].
  destruct (turn_in_context ctx before after
              (mkRet (chr "l") (Some path) None) s s1 _ B eq_refl) as [T1 T2].
  destruct (turn_in_context ctx before after
              (mkRet (chr "l") None None) s s1 _ B eq_refl) as [_ T3].
  repeat split; assumption.
Qed.

Lemma log_output_option_runs_at_once_witness :
  parse_loop 7 [mkRet (chr "f") (Some "a.cfg") None] initial_state
  = Returns tt (mkState 0 0 [] ["script {a.cfg}"] [] [])
  /\ parse_loop 7 ([mkRet (chr "f") (Some "a.cfg") None]
                   ++ [mkRet (chr "l") (Some "out.log") None]) initial_state
     = Returns tt
         (run_now 7 ["log_output out.log"]
                  (mkState 0 0 [] ["script {a.cfg}"] [] [])).
Proof.
  split; [reflexivity|].
  exact (proj1 (proj2 (log_output_option_runs_at_once 7 "out.log"
                         [mkRet (chr "f") (Some "a.cfg") None] []
                         initial_state
                         (mkState 0 0 [] ["script {a.cfg}"] [] []) eq_refl))).
Defined.

(** X10: an occurrence of [-p] or [--pipe], wherever it stands, runs exactly
    one directive at once, [gdb_port pipe; log_output openocd.log], and then
    logs exactly one warning that the option is deprecated; the
    configuration queue and the search path are unchanged. *)
Theorem pipe_option_runs_and_warns (ctx : command_context)
    (before after : list ret_t) (s s1 : state) :
  parse_loop ctx before s = Returns tt s1 ->
  getopt_long ["openocd"; "-p"] = [mkRet (chr "p") None None]
  /\ getopt_long ["openocd"; "--pipe"] = [mkRet (chr "p") None None]
  /\ exists s2 warning,
       parse_loop ctx (before ++ [mkRet (chr "p") None None]) s
       = Returns tt s2
       /\ run_lines s2
          = run_lines s1 ++ [(ctx, "gdb_port pipe; log_output openocd.log")]
       /\ log s2 = log s1 ++ [(LOG_LVL_WARNING, warning)]
       /\ config_commands s2 = config_commands s1
       /\ script_search_dirs s2 = script_search_dirs s1
       /\ parse_loop ctx (before ++ mkRet (chr "p") None None :: after) s
          = parse_loop ctx after s2.
Proof.
  intros B. split; [reflexivity|]. split; [reflexivity|].
  destruct (turn_in_context ctx before after
              (mkRet (chr "p") None None) s s1 _ B eq_refl) as [T1 T2].
  eexists. eexists. split; [exact T1|].
  repeat split. exact T2.
Qed.

Lemma pipe_option_runs_and_warns_witness :
  parse_loop 7 [mkRet (chr "s") (Some "tcl") None] initial_state
  = Returns tt (mkState 0 0 ["tcl"] [] [] [])
  /\ exists s2 warning,
       parse_loop 7 ([mkRet (chr "s") (Some "tcl") None]
                     ++ [mkRet (chr "p") None None]) initial_state
       = Returns tt s2
       /\ run_lines s2 = [(7, "gdb_port pipe; log_output openocd.log")]
       /\ log s2 = [(LOG_LVL_WARNING, warning)].
Proof.
  split; [reflexivity|].
  destruct (pipe_option_runs_and_warns 7
              [mkRet (chr "s") (Some "tcl") None] [] initial_state
              (mkState 0 0 ["tcl"] [] [] []) eq_refl)
    as (_ & _ & s2 & warning & L & R & G & _).
  exists s2, warning. repeat split; assumption.
Defined.

(* ------------------------------------------------------------------------- *)
(** ** parse_cmdline_args, further *)

(** X11: parse_cmdline_args calls exit only for help and version.  It exits
    with -1 only when the help flag is up, set before or asked for in the
    argument vector; it exits with 0 only when the help flag is down and the
    version flag is up; and when it returns, neither flag is up and the
    value returned is ERROR_OK. *)
Theorem parse_cmdline_args_outcomes (b : build) (w : os)
    (ctx : command_context) (argv : list string) (s : state) :
  (forall status s',
      parse_cmdline_args b w ctx argv s = Exits status s' ->
      (status = (-1)%Z
       /\ (help_flag s <> 0%Z \/ existsb asks_help (getopt_long argv) = true))
      \/ (status = 0%Z
          /\ help_flag s = 0%Z
          /\ existsb asks_help (getopt_long argv) = false
          /\ (version_flag s <> 0%Z
              \/ existsb asks_version (getopt_long argv) = true)))
  /\ (forall r s',
         parse_cmdline_args b w ctx argv s = Returns r s' ->
         r = ERROR_OK
         /\ help_flag s = 0%Z /\ version_flag s = 0%Z
         /\ existsb asks_help (getopt_long argv) = false
         /\ existsb asks_version (getopt_long argv) = false).
Proof.
  rewrite parse_cmdline_args_eq.
  pose proof (help_flag_after_calls ctx (getopt_long argv) s) as HF.
  assert (VF : version_flag (after_calls ctx (getopt_long argv) s)
               = if existsb asks_version (getopt_long argv) then 1%Z
                 else version_flag s) by reflexivity.
  destruct (Z.eq_dec (help_flag (after_calls ctx (getopt_long argv) s)) 0)
    as [H|H].
  - assert (existsb asks_help (getopt_long argv) = false /\ help_flag s = 0%Z)
      as [A H0].
    { destruct (existsb asks_help (getopt_long argv)); [|split; congruence].
      rewrite HF in H. discriminate. }
    destruct (Z.eq_dec (version_flag (after_calls ctx (getopt_long argv) s)) 0)
      as [V|V].
    + assert (existsb asks_version (getopt_long argv) = false
              /\ version_flag s = 0%Z) as [B V0].
      { destruct (existsb asks_version (getopt_long argv));
          [|split; congruence].
        rewrite VF in V. discriminate. }
      rewrite after_loop_neither by assumption.
      unfold bind. rewrite add_default_dirs_eq.
      destruct (run_prefix b w); split; try discriminate.
      intros r s' [= <- _]. auto.
    + rewrite after_loop_version by assumption.
      split; [|discriminate].
      intros status s' [= <- _]. right. repeat split; auto.
      destruct (existsb asks_version (getopt_long argv)); [now right|].
      left. congruence.
  - rewrite after_loop_help by assumption. split; [|discriminate].
    intros status s' [= <- _]. left. split; [reflexivity|].
    destruct (existsb asks_help (getopt_long argv)); [now right|].
    left. congruence.
Qed.

Lemma parse_cmdline_args_outcomes_witness :
  (parse_cmdline_args unix_build linux_installed 0
     ["openocd"; "-f"; "a.cfg"; "--version"; "-s"; "x"] initial_state
   = Exits 0 (mkState 0 1 ["x"] ["script {a.cfg}"] [] [])
   /\ existsb asks_version
        (getopt_long ["openocd"; "-f"; "a.cfg"; "--version"; "-s"; "x"])
      = true)
  /\ (parse_cmdline_args unix_build linux_installed 0
        ["openocd"; "-x"; "-s"; "tcl"] initial_state
      = Returns ERROR_OK
          (mkState 0 0
             ["tcl"; "/home/user/.openocd";
              "/usr/local/usr/local/share/openocd/site";
              "/usr/local/usr/local/share/openocd/scripts"]
             [] []
             [(LOG_LVL_DEBUG, "bindir=/usr/local/bin");
              (LOG_LVL_DEBUG, "pkgdatadir=/usr/local/share/openocd");
              (LOG_LVL_DEBUG, "run_prefix=/usr/local")])
      /\ existsb asks_help (getopt_long ["openocd"; "-x"; "-s"; "tcl"])
         = false).
Proof.
  assert (E : parse_cmdline_args unix_build linux_installed 0
     ["openocd"; "-f"; "a.cfg"; "--version"; "-s"; "x"] initial_state
   = Exits 0 (mkState 0 1 ["x"] ["script {a.cfg}"] [] []))
    by (vm_compute; reflexivity).
  assert (R : parse_cmdline_args unix_build linux_installed 0
        ["openocd"; "-x"; "-s"; "tcl"] initial_state
      = Returns ERROR_OK
          (mkState 0 0
             ["tcl"; "/home/user/.openocd";
              "/usr/local/usr/local/share/openocd/site";
              "/usr/local/usr/local/share/openocd/scripts"]
             [] []
             [(LOG_LVL_DEBUG, "bindir=/usr/local/bin");
              (LOG_LVL_DEBUG, "pkgdatadir=/usr/local/share/openocd");
              (LOG_LVL_DEBUG, "run_prefix=/usr/local")]))
    by (vm_compute; reflexivity).
  split; (split; [assumption|]).
  - destruct (proj1 (parse_cmdline_args_outcomes unix_build linux_installed 0
                       ["openocd"; "-f"; "a.cfg"; "--version"; "-s"; "x"]
                       initial_state) _ _ E)
      as [[N _] | (_ & _ & _ & [F | V])].
    + discriminate N.
    + now contradiction F.
    + exact V.
  - exact (proj1 (proj2 (proj2 (proj2
      (proj2 (parse_cmdline_args_outcomes unix_build linux_installed 0
                ["openocd"; "-x"; "-s"; "tcl"] initial_state) _ _ R))))).
Defined.

(** X12: however parse_cmdline_args ends, by returning or through exit for
    help or version, every directive of [-d], [-l] and [-p] has been run, in
    the order of the command line, and no directive of [-f] or [-c] has: they
    are all in the configuration queue, in order, behind what the queue
    held. *)
Theorem directives_on_every_outcome (b : build) (w : os)
    (ctx : command_context) (argv : list string) (s : state) :
  match parse_cmdline_args b w ctx argv s with
  | Returns _ s' | Exits _ s' =>
      run_lines s'
      = run_lines s ++ map (pair ctx) (flat_map immediate (getopt_long argv))
      /\ config_commands s'
         = config_commands s ++ flat_map deferred (getopt_long argv)
  | Undefined => run_prefix b w = None
  end.
Proof.
  rewrite parse_cmdline_args_eq. unfold after_loop.
  destruct (negb (help_flag (after_calls ctx (getopt_long argv) s) =? 0)%Z).
  - unfold bind. rewrite print_lines_eq. split; reflexivity.
  - destruct (negb (version_flag (after_calls ctx (getopt_long argv) s) =? 0)%Z).
    + split; reflexivity.
    + unfold bind. rewrite add_default_dirs_eq.
      destruct (run_prefix b w); [split|]; reflexivity.
Qed.

(** X13: the long and the short form of an option are synonyms.  Every entry
    of [long_options] has a letter in the option string, the first letter of
    its name, that takes an argument in the same way, and one turn of the
    loop on the long form leaves the same state as one turn on the letter:
    [--help] and [--version] store 1 through their flag pointer where [-h]
    and [-v] assign 1 in the switch. *)
Theorem long_and_short_forms_agree (e : option_entry) :
  In e long_options ->
  exists (c : ascii) (rest : string),
    name e = String c rest
    /\ short_lookup optstring c = Some (has_arg e)
    /\ forall (ctx : command_context) (optarg : option string) (s : state),
         parse_loop ctx [matched e optarg] s
         = parse_loop ctx [mkRet (chr c) optarg None] s.
Proof.
  intros I. cbn in I.
  repeat (destruct I as [<-|I];
          [eexists; eexists; split; [reflexivity|];
           split; [reflexivity|]; intros ctx optarg s; reflexivity|]).
  contradiction.
Qed.

Lemma long_and_short_forms_agree_witness :
  In (mkOption "help" no_argument (Some Help_flag) 1) long_options
  /\ exists c rest,
       "help" = String c rest
       /\ short_lookup optstring c = Some no_argument
       /\ forall ctx optarg s,
            parse_loop ctx
              [matched (mkOption "help" no_argument (Some Help_flag) 1) optarg]
              s
            = parse_loop ctx [mkRet (chr c) optarg None] s.
Proof.
  split; [now left|].
  apply (long_and_short_forms_agree
           (mkOption "help" no_argument (Some Help_flag) 1)).
  now left.
Defined.
